(** * foldingathome_exporter: the poll pipeline of [main.go]

    A shallow embedding of the exporter's collector: the metric
    descriptors, the five field parsers, the queue/slot joiner and
    [Collect], together with the parts of Go's runtime and standard
    library they call ([strings], [time], [fmt], map lookup, index and
    type-assertion panics, [defer]).

    Go values are modelled as follows.
    - [string]: a byte sequence, Rocq's [string].
    - [int], [int64], [time.Duration]: [Z] (a duration counts nanoseconds).
    - [float64]: IEEE 754 binary64 as [spec_float] with precision 53 and
      maximal exponent 1024; conversions and arithmetic round to nearest
      even.
    - [interface{}]: the inductive [any] of the values a decoded reply
      can hold.
    - [map[string]T]: [gmap string T]; a missing key reads as T's zero
      value.
    - a function body: a computation in [Go], which records the events
      it performs (channel sends, log entries, client calls) and ends
      either by returning or in a run-time panic. *)

From Stdlib Require Import ZArith String Ascii Lia Bool DecimalString.
From Stdlib Require Import Floats.SpecFloat.
From stdpp Require Import base gmap strings list.

Open Scope string_scope.
Open Scope Z_scope.

(** ** float64 *)

Definition float64 : Type := spec_float.

Module f64.
Definition prec : Z := 53.
Definition emax : Z := 1024.

(** [float64(z)] for an integer [z]. *)
Definition of_Z (z : Z) : float64 := binary_normalize prec emax z 0 false.
Definition add : float64 -> float64 -> float64 := SFadd prec emax.
Definition mul : float64 -> float64 -> float64 := SFmul prec emax.
Definition div : float64 -> float64 -> float64 := SFdiv prec emax.

(** [uint64(f)] for a finite non-negative [f]: truncation. *)
Definition to_Z (f : float64) : Z :=
  match f with
  | S754_finite s m e =>
      let a := match e with
               | Z0 => Zpos m
               | Zpos p => Zpos m * 2 ^ Zpos p
               | Zneg p => Zpos m / 2 ^ Zpos p
               end in
      if s then - a else a
  | _ => 0
  end.
End f64.

(** ** Bytes and the [strings] package *)

Definition byte_val (c : ascii) : Z := Z.of_N (N_of_ascii c).

Definition isDigit (c : ascii) : bool :=
  (48 <=? byte_val c) && (byte_val c <=? 57).

Definition digit_val (c : ascii) : Z := byte_val c - 48.

Module strings.

Fixpoint HasPrefix (s prefix : string) : bool :=
  match prefix, s with
  | EmptyString, _ => true
  | String p prefix', String c s' => Ascii.eqb c p && HasPrefix s' prefix'
  | String _ _, EmptyString => false
  end.

Fixpoint drop (n : nat) (s : string) : string :=
  match n, s with
  | O, _ => s
  | S n', String _ s' => drop n' s'
  | S _, EmptyString => EmptyString
  end.

Fixpoint take (n : nat) (s : string) : string :=
  match n, s with
  | O, _ => EmptyString
  | S n', String c s' => String c (take n' s')
  | S _, EmptyString => EmptyString
  end.

(** [len(s) >= len(suffix) && s[len(s)-len(suffix):] == suffix] *)
Definition HasSuffix (s suffix : string) : bool :=
  (String.length suffix <=? String.length s)%nat
  && String.eqb (drop (String.length s - String.length suffix) s) suffix.

(** [TrimSuffix] removes the suffix once, when it is there. *)
Definition TrimSuffix (s suffix : string) : string :=
  if HasSuffix s suffix
  then take (String.length s - String.length suffix) s
  else s.

(** [ReplaceAll s old new] for a non-empty [old]: the non-overlapping
    occurrences of [old] are replaced from the left.  [skip] counts
    the bytes of a matched occurrence that are still to be dropped.
    (For an empty [old], which the exporter never passes, the model
    leaves [s] unchanged.) *)
Fixpoint replace_from (skip : nat) (s old new : string) : string :=
  match s with
  | EmptyString => EmptyString
  | String c s' =>
      match skip with
      | S k => replace_from k s' old new
      | O =>
          if HasPrefix s old
          then new +:+ replace_from (String.length old - 1) s' old new
          else String c (replace_from O s' old new)
      end
  end.

Definition ReplaceAll (s old new : string) : string :=
  match old with
  | EmptyString => s
  | _ => replace_from O s old new
  end.

Definition isUpperASCII (c : ascii) : bool :=
  (65 <=? byte_val c) && (byte_val c <=? 90).

Definition lowerASCII (c : ascii) : ascii :=
  if isUpperASCII c then ascii_of_N (N_of_ascii c + 32) else c.

Fixpoint isASCII (s : string) : bool :=
  match s with
  | EmptyString => true
  | String c s' => (byte_val c <? 128) && isASCII s'
  end.

Fixpoint mapBytes (f : ascii -> ascii) (s : string) : string :=
  match s with
  | EmptyString => EmptyString
  | String c s' => String (f c) (mapBytes f s')
  end.

Section ToLower.
(** [strings.Map(unicode.ToLower, s)], the path [ToLower] takes for
    a string with a byte outside ASCII.  The Unicode case tables
    are not part of this development. *)
Variable unicodeLower : string -> string.

Definition ToLower (s : string) : string :=
  if isASCII s then mapBytes lowerASCII s else unicodeLower s.
End ToLower.

End strings.

(** ** [fmt]: the verb [%d] *)

Module fmt.
Definition d (z : Z) : string := NilZero.string_of_int (Z.to_int z).
End fmt.

(** ** Errors, panics and the effects of a function body *)

(** An [error] value.  [errors_New] is [errors.New]; the others are
    the errors of the [time] package, kept with their parts instead of
    their formatted message. *)
Inductive error : Type :=
| errors_New (msg : string)
| ErrInvalidDuration (orig : string)
| ErrMissingUnit (orig : string)
| ErrUnknownUnit (unit orig : string)
| ParseError (layoutElem valueElem message : string).

Inductive panic : Type :=
| IndexOutOfRange (index : nat) (len : nat)
| InterfaceConversion (want : string).

Inductive res (A : Type) : Type :=
| Returned (a : A)
| Panicked (p : panic).
Arguments Returned {A} a.
Arguments Panicked {A} p.

(** Everything a decoded reply of the daemon can hold behind
    [interface{}]. *)
#[local] Unset Elimination Schemes.
Inductive any : Type :=
| AString (s : string)
| ANumber (f : float64)
| ABool (b : bool)
| ANil
| ASlice (l : list any)
| AMap (m : list (string * any)).
#[local] Set Elimination Schemes.

(** *** Metric descriptors and metrics *)

Record Desc : Type := NewDesc {
  fqName : string;
  help : string;
  variableLabels : list string
}.

(** A constant gauge: descriptor, value, label values in the order of
    the descriptor's label names. *)
Record Metric : Type := MustNewConstMetric {
  desc : Desc;
  value : float64;
  labelValues : list string
}.

Definition labelPairs (m : Metric) : list (string * string) :=
  zip (variableLabels (desc m)) (labelValues m).

Inductive event : Type :=
| EvNewAPI (address : string)
| EvClose
| EvExec (command : string)
| EvInfo
| EvSlotInfo
| EvQueueInfo
| EvSend (m : Metric)
| EvLog (msg : string) (err : error).

(** A computation: the events performed, then how it ended. *)
Record Go (A : Type) : Type := MkGo {
  trace : list event;
  result : res A
}.
Arguments MkGo {A} trace result.
Arguments trace {A} g.
Arguments result {A} g.

Definition Go_ret {A} (a : A) : Go A := MkGo [] (Returned a).

Definition Go_bind {A B} (f : A -> Go B) (m : Go A) : Go B :=
  match result m with
  | Returned a => MkGo (trace m ++ trace (f a)) (result (f a))
  | Panicked p => MkGo (trace m) (Panicked p)
  end.

#[global] Instance Go_mret : MRet Go := @Go_ret.
#[global] Instance Go_mbind : MBind Go := @Go_bind.

Definition emit (ev : event) : Go unit := MkGo [ev] (Returned tt).
Definition raise {A} (p : panic) : Go A := MkGo [] (Panicked p).

(** [ch <- m] *)
Definition send (m : Metric) : Go unit := emit (EvSend m).

(** [level.Error(e.logger).Log("msg", msg, "err", err)] *)
Definition logError (msg : string) (err : error) : Go unit :=
  emit (EvLog msg err).

(** [defer cleanup] around [body]: [cleanup] runs when [body] returns
    and also when it panics; the panic then goes on. *)
Definition defer {A} (cleanup : Go unit) (body : Go A) : Go A :=
  MkGo (trace body ++ trace cleanup)
       (match result body with
        | Returned a =>
            match result cleanup with
            | Returned _ => Returned a
            | Panicked p => Panicked p
            end
        | Panicked p => Panicked p
        end).

(** [s[i]] *)
Definition index {A} (s : list A) (i : nat) : Go A :=
  match s !! i with
  | Some x => mret x
  | None => raise (IndexOutOfRange i (length s))
  end.

(** [x.(string)] and [x.([]interface{})] *)
Definition assertString (x : any) : Go string :=
  match x with
  | AString s => mret s
  | _ => raise (InterfaceConversion "string")
  end.

Definition assertSlice (x : any) : Go (list any) :=
  match x with
  | ASlice l => mret l
  | _ => raise (InterfaceConversion "[]interface {}")
  end.

(** The metrics sent on the channel, in order. *)
Fixpoint sent (t : list event) : list Metric :=
  match t with
  | [] => []
  | EvSend m :: t' => m :: sent t'
  | _ :: t' => sent t'
  end.

Definition isQuery (ev : event) : bool :=
  match ev with
  | EvExec _ | EvInfo | EvSlotInfo | EvQueueInfo => true
  | _ => false
  end.

(** ** The [time] package: [ParseDuration], [Duration.Seconds],
       [Parse] with the layout [RFC3339], [Time.Unix]

    These follow the sources of Go's standard library (release 1.22).
    A call that returns [(v, err)] in Go is a value of [error + V]
    here: the functions below return the zero value next to every
    error, and their callers in the exporter read [v] only when [err]
    is nil. *)

#[global] Instance sum_error_bind : MBind (sum error) :=
  fun A B f m => match m with inl e => inl e | inr a => f a end.
#[global] Instance sum_error_ret : MRet (sum error) := fun A a => inr a.

Module time.

Definition Duration : Type := Z.

Definition Nanosecond : Duration := 1.
Definition Microsecond : Duration := 1000 * Nanosecond.
Definition Millisecond : Duration := 1000 * Microsecond.
Definition Second : Duration := 1000 * Millisecond.
Definition Minute : Duration := 60 * Second.
Definition Hour : Duration := 60 * Minute.

(** [func (d Duration) Seconds() float64]:
    [sec := d / Second; nsec := d % Second;
     return float64(sec) + float64(nsec)/1e9]. *)
Definition Seconds (d : Duration) : float64 :=
  let sec := Z.quot d Second in
  let nsec := Z.rem d Second in
  f64.add (f64.of_Z sec) (f64.div (f64.of_Z nsec) (f64.of_Z 1000000000)).

(** The two spellings of the micro sign, U+00B5 and U+03BC, in UTF-8. *)
Definition micro1 : string :=
  String (ascii_of_nat 194) (String (ascii_of_nat 181) "s").
Definition micro2 : string :=
  String (ascii_of_nat 206) (String (ascii_of_nat 188) "s").

Definition unitMap : gmap string Z :=
  {[ "ns" := Nanosecond;
     "us" := Microsecond;
     micro1 := Microsecond;
     micro2 := Microsecond;
     "ms" := Millisecond;
     "s" := Second;
     "m" := Minute;
     "h" := Hour ]}.

(** [leadingInt]: the leading [0-9]* of [s] as an unsigned integer,
    and the rest; [None] is [errLeadingInt] (overflow). *)
Fixpoint leadingInt_from (x : Z) (s : string) : option (Z * string) :=
  match s with
  | String c s' =>
      if isDigit c then
        if x >? 2 ^ 63 / 10 then None
        else
          let x' := x * 10 + digit_val c in
          if x' >? 2 ^ 63 then None else leadingInt_from x' s'
      else Some (x, s)
  | EmptyString => Some (x, s)
  end.

Definition leadingInt (s : string) : option (Z * string) :=
  leadingInt_from 0 s.

(** [leadingFraction]: the leading [0-9]* of [s] as [x] with
    [scale = 10^digits]; digits beyond what fits are dropped. *)
Fixpoint leadingFraction_from (x : Z) (scale : float64) (overflow : bool)
    (s : string) : Z * float64 * string :=
  match s with
  | String c s' =>
      if isDigit c then
        if overflow then leadingFraction_from x scale true s'
        else if x >? (2 ^ 63 - 1) / 10
        then leadingFraction_from x scale true s'
        else
          let y := x * 10 + digit_val c in
          if y >? 2 ^ 63 then leadingFraction_from x scale true s'
          else leadingFraction_from y (f64.mul scale (f64.of_Z 10)) false s'
      else (x, scale, s)
  | EmptyString => (x, scale, s)
  end.

Definition leadingFraction (s : string) : Z * float64 * string :=
  leadingFraction_from 0 (f64.of_Z 1) false s.

(** The length of the unit: the bytes up to the next ['.'] or digit. *)
Fixpoint unitLen (s : string) : nat :=
  match s with
  | String c s' =>
      if Ascii.eqb c "." || isDigit c then O else S (unitLen s')
  | EmptyString => O
  end.

(** The loop [for s != ""] of [ParseDuration]; [d] is the sum so far,
    a uint64.  Every round consumes at least one byte, so [fuel] of
    the length of [s] is enough. *)
Fixpoint durationLoop (fuel : nat) (orig : string) (d : Z) (s : string)
    : error + Z :=
  match s with
  | EmptyString => inr d
  | String c0 _ =>
      match fuel with
      | O => inl (ErrInvalidDuration orig)
      | S fuel' =>
          if negb (Ascii.eqb c0 "." || isDigit c0)
          then inl (ErrInvalidDuration orig)
          else
            match leadingInt s with
            | None => inl (ErrInvalidDuration orig)
            | Some (v, s1) =>
                let pre := negb (String.length s =? String.length s1)%nat in
                let '(f, scale, post, s2) :=
                  match s1 with
                  | String "."%char s1' =>
                      let '(f, scale, s2) := leadingFraction s1' in
                      (f, scale,
                       negb (String.length s1' =? String.length s2)%nat, s2)
                  | _ => (0, f64.of_Z 1, false, s1)
                  end in
                if negb pre && negb post
                then inl (ErrInvalidDuration orig)
                else
                  let i := unitLen s2 in
                  if (i =? 0)%nat then inl (ErrMissingUnit orig)
                  else
                    let u := strings.take i s2 in
                    let s3 := strings.drop i s2 in
                    match unitMap !! u with
                    | None => inl (ErrUnknownUnit u orig)
                    | Some unit =>
                        if v >? 2 ^ 63 / unit
                        then inl (ErrInvalidDuration orig)
                        else
                          let v1 := v * unit in
                          let v2 :=
                            if f >? 0
                            then v1 + f64.to_Z
                                        (f64.mul (f64.of_Z f)
                                           (f64.div (f64.of_Z unit) scale))
                            else v1 in
                          if (f >? 0) && (v2 >? 2 ^ 63)
                          then inl (ErrInvalidDuration orig)
                          else
                            let d' := (d + v2) mod 2 ^ 64 in
                            if d' >? 2 ^ 63
                            then inl (ErrInvalidDuration orig)
                            else durationLoop fuel' orig d' s3
                    end
            end
      end
  end.

(** [func ParseDuration(s string) (Duration, error)]: an optional
    sign, then one or more groups of a decimal number, possibly with a
    fraction, and a unit. *)
Definition ParseDuration (orig : string) : error + Duration :=
  let '(neg, s) :=
    match orig with
    | String "-"%char s' => (true, s')
    | String "+"%char s' => (false, s')
    | _ => (false, orig)
    end in
  if String.eqb s "0" then inr 0
  else if String.eqb s "" then inl (ErrInvalidDuration orig)
  else
    d ← durationLoop (String.length s) orig 0 s;
    if neg then inr (- d)
    else if d >? 2 ^ 63 - 1 then inl (ErrInvalidDuration orig)
    else inr d.

(** *** Instants *)

(** A [Time], by what [Unix] and [Nanosecond] read from it. *)
Record Time : Type := unixTime { unixSec : Z; nsec : Z }.

(** [func (t Time) Unix() int64] *)
Definition Unix (t : Time) : Z := unixSec t.

Definition addSec (t : Time) (d : Z) : Time :=
  unixTime (unixSec t + d) (nsec t).

(** The conversions [uint64(x)] and [int64(x)]. *)
Definition uint64 (z : Z) : Z := z mod 2 ^ 64.
Definition int64 (z : Z) : Z := (z + 2 ^ 63) mod 2 ^ 64 - 2 ^ 63.

Definition secondsPerMinute : Z := 60.
Definition secondsPerHour : Z := 60 * secondsPerMinute.
Definition secondsPerDay : Z := 24 * secondsPerHour.
Definition daysPer400Years : Z := 365 * 400 + 97.
Definition daysPer100Years : Z := 365 * 100 + 24.
Definition daysPer4Years : Z := 365 * 4 + 1.

Definition absoluteZeroYear : Z := -292277022399.
Definition internalYear : Z := 1.
(** [(absoluteZeroYear - internalYear) * 365.2425 * secondsPerDay] *)
Definition absoluteToInternal : Z :=
  (absoluteZeroYear - internalYear) * 3652425 * secondsPerDay / 10000.
Definition internalToUnix : Z :=
  - (1969 * 365 + 1969 / 4 - 1969 / 100 + 1969 / 400) * secondsPerDay.

Definition daysBefore : list Z :=
  [0; 31; 31 + 28; 31 + 28 + 31; 31 + 28 + 31 + 30;
   31 + 28 + 31 + 30 + 31; 31 + 28 + 31 + 30 + 31 + 30;
   31 + 28 + 31 + 30 + 31 + 30 + 31;
   31 + 28 + 31 + 30 + 31 + 30 + 31 + 31;
   31 + 28 + 31 + 30 + 31 + 30 + 31 + 31 + 30;
   31 + 28 + 31 + 30 + 31 + 30 + 31 + 31 + 30 + 31;
   31 + 28 + 31 + 30 + 31 + 30 + 31 + 31 + 30 + 31 + 30;
   31 + 28 + 31 + 30 + 31 + 30 + 31 + 31 + 30 + 31 + 30 + 31].

(** [daysBefore[i]], for the indices 0..12 the callers use. *)
Definition daysBeforeAt (i : Z) : Z := default 0 (daysBefore !! Z.to_nat i).

Definition isLeap (year : Z) : bool :=
  (Z.rem year 4 =? 0)
  && (negb (Z.rem year 100 =? 0) || (Z.rem year 400 =? 0)).

Definition daysIn (m year : Z) : Z :=
  if (m =? 2) && isLeap year then 29
  else daysBeforeAt m - daysBeforeAt (m - 1).

Definition daysSinceEpoch (year : Z) : Z :=
  let y := uint64 (year - absoluteZeroYear) in
  let n := y / 400 in
  let y := y - 400 * n in
  let d := daysPer400Years * n in
  let n := y / 100 in
  let y := y - 100 * n in
  let d := d + daysPer100Years * n in
  let n := y / 4 in
  let y := y - 4 * n in
  let d := d + daysPer4Years * n in
  let n := y in
  d + 365 * n.

(** [norm(hi, lo, base)] *)
Definition norm (hi lo base : Z) : Z * Z :=
  let '(hi, lo) :=
    if lo <? 0
    then let n := Z.quot (- lo - 1) base + 1 in (hi - n, lo + n * base)
    else (hi, lo) in
  if lo >=? base
  then let n := Z.quot lo base in (hi + n, lo - n * base)
  else (hi, lo).

(** [Date(year, month, day, hour, min, sec, nsec, UTC)] *)
Definition Date (year month day hour min sec nsec : Z) : Time :=
  let m := month - 1 in
  let '(year, m) := norm year m 12 in
  let month := m + 1 in
  let '(sec, nsec) := norm sec nsec 1000000000 in
  let '(min, sec) := norm min sec 60 in
  let '(hour, min) := norm hour min 60 in
  let '(day, hour) := norm day hour 24 in
  let d := daysSinceEpoch year in
  let d := d + daysBeforeAt (month - 1) in
  let d := if isLeap year && (month >=? 3) then d + 1 else d in
  let d := uint64 (d + uint64 (day - 1)) in
  let abs := uint64 (d * secondsPerDay) in
  let abs :=
    uint64 (abs + uint64 (hour * secondsPerHour + min * secondsPerMinute
                          + sec)) in
  let unix := int64 (int64 abs + (absoluteToInternal + internalToUnix)) in
  unixTime unix nsec.

(** *** [Parse(RFC3339, value)]

    [Parse] walks the layout chunk by chunk.  For the layout
    [RFC3339 = 2006-01-02T15:04:05Z07:00] the chunks are: year,
    ['-'] month, ['-'] day, ['T'] hour, [':'] minute, [':'] second
    and the zone [Z07:00]; the steps below are the parser's cases for
    them, in that order.  (The fast path Parse tries first for this
    layout accepts a subset of these texts with the same result.) *)

Definition errBad (layoutElem value : string) : error :=
  ParseError layoutElem value "".
Definition rangeErr (layoutElem value what : string) : error :=
  ParseError layoutElem value (": " +:+ what +:+ " out of range").

Definition isDigitAt (s : string) (i : nat) : bool :=
  match String.get i s with
  | Some c => isDigit c
  | None => false
  end.

(** [getnum(s, fixed)]: one or two digits; two when [fixed]. *)
Definition getnum (s : string) (fixed : bool) : option (Z * string) :=
  if negb (isDigitAt s 0) then None
  else if negb (isDigitAt s 1) then
    if fixed then None
    else match s with
         | String c0 s' => Some (digit_val c0, s')
         | EmptyString => None
         end
  else match s with
       | String c0 (String c1 s') =>
           Some (digit_val c0 * 10 + digit_val c1, s')
       | _ => None
       end.

(** [atoi(s)]: an optional sign, then digits up to the end. *)
Definition atoi (s : string) : option Z :=
  let '(neg, s) :=
    match s with
    | String "-"%char s' => (true, s')
    | String "+"%char s' => (false, s')
    | _ => (false, s)
    end in
  match leadingInt s with
  | Some (q, EmptyString) => Some (if neg then - q else q)
  | _ => None
  end.

(** [skip(value, prefix)] for a one-byte prefix other than a space,
    as the layout's separators are. *)
Definition skip (value : string) (prefix : ascii) : error + string :=
  match value with
  | String c value' =>
      if Ascii.eqb c prefix then inr value'
      else inl (errBad (String prefix "") value)
  | EmptyString => inl (errBad (String prefix "") value)
  end.

Definition parseYear (value : string) : error + (Z * string) :=
  if (String.length value <? 4)%nat || negb (isDigitAt value 0)
  then inl (errBad "2006" value)
  else
    let p := strings.take 4 value in
    let value := strings.drop 4 value in
    match atoi p with
    | Some year => inr (year, value)
    | None => inl (errBad "2006" value)
    end.

Definition parseMonth (value : string) : error + (Z * string) :=
  match getnum value true with
  | Some (month, value) =>
      if (month <=? 0) || (12 <? month)
      then inl (rangeErr "01" value "month")
      else inr (month, value)
  | None => inl (errBad "01" value)
  end.

Definition parseDay (value : string) : error + (Z * string) :=
  match getnum value true with
  | Some (day, value) => inr (day, value)
  | None => inl (errBad "02" value)
  end.

Definition parseHour (value : string) : error + (Z * string) :=
  match getnum value false with
  | Some (hour, value) =>
      if (hour <? 0) || (24 <=? hour)
      then inl (rangeErr "15" value "hour")
      else inr (hour, value)
  | None => inl (errBad "15" value)
  end.

Definition parseMinute (value : string) : error + (Z * string) :=
  match getnum value true with
  | Some (min, value) =>
      if (min <? 0) || (60 <=? min)
      then inl (rangeErr "04" value "minute")
      else inr (min, value)
  | None => inl (errBad "04" value)
  end.

Definition commaOrPeriod (c : ascii) : bool :=
  Ascii.eqb c "." || Ascii.eqb c ",".

(** The [n] of the fractional-second scan: 2 plus the digits from
    index 2 on. *)
Fixpoint digitRun (s : string) : nat :=
  match s with
  | String c s' => if isDigit c then S (digitRun s') else O
  | EmptyString => O
  end.

(** [parseNanoseconds(value, nbytes)], called on a separator
    followed by at least one digit. *)
Definition parseNanoseconds (value : string) (nbytes : nat) : option Z :=
  let '(value, nbytes) :=
    if (10 <? nbytes)%nat then (strings.take 10 value, 10%nat)
    else (value, nbytes) in
  match atoi (strings.take (nbytes - 1) (strings.drop 1 value)) with
  | Some ns =>
      if ns <? 0 then None
      else Some (ns * 10 ^ Z.of_nat (10 - nbytes))
  | None => None
  end.

(** Second, then a fractional second the layout does not mention. *)
Definition parseSecond (value : string) : error + (Z * Z * string) :=
  match getnum value true with
  | None => inl (errBad "05" value)
  | Some (sec, value) =>
      if (sec <? 0) || (60 <=? sec)
      then inl (rangeErr "05" value "second")
      else
        match value with
        | String c0 (String c1 _) =>
            if commaOrPeriod c0 && isDigit c1 then
              let n := (2 + digitRun (strings.drop 2 value))%nat in
              match parseNanoseconds value n with
              | Some ns => inr (sec, ns, strings.drop n value)
              | None =>
                  inl (rangeErr "05" (strings.drop n value)
                         "fractional second")
              end
            else inr (sec, 0, value)
        | _ => inr (sec, 0, value)
        end
  end.

(** The zone: [Some offset] in seconds east of UTC, or [None] for
    the letter Z (UTC itself). *)
Definition parseZone (value : string) : error + (option Z * string) :=
  match value with
  | String "Z"%char value' => inr (None, value')
  | _ =>
      if (String.length value <? 6)%nat then inl (errBad "Z07:00" value)
      else if negb (String.eqb (strings.take 1 (strings.drop 3 value)) ":")
      then inl (errBad "Z07:00" value)
      else
        let sign := strings.take 1 value in
        let hour := strings.take 2 (strings.drop 1 value) in
        let min := strings.take 2 (strings.drop 4 value) in
        let value := strings.drop 6 value in
        match getnum hour true with
        | None => inl (errBad "Z07:00" value)
        | Some (hr, _) =>
            match getnum min true with
            | None => inl (errBad "Z07:00" value)
            | Some (mm, _) =>
                if 60 <? mm
                then inl (rangeErr "Z07:00" value "time zone offset minute")
                else if 24 <? hr
                then inl (rangeErr "Z07:00" value "time zone offset hour")
                else
                  let zoneOffset := (hr * 60 + mm) * 60 in
                  if String.eqb sign "+" then inr (Some zoneOffset, value)
                  else if String.eqb sign "-"
                  then inr (Some (- zoneOffset), value)
                  else inl (errBad "Z07:00" value)
            end
        end
  end.

Definition ParseRFC3339 (value : string) : error + Time :=
  '(year, value) ← parseYear value;
  value ← skip value "-";
  '(month, value) ← parseMonth value;
  value ← skip value "-";
  '(day, value) ← parseDay value;
  value ← skip value "T";
  '(hour, value) ← parseHour value;
  value ← skip value ":";
  '(min, value) ← parseMinute value;
  value ← skip value ":";
  '(sec, ns, value) ← parseSecond value;
  '(zone, value) ← parseZone value;
  if negb (String.eqb value "")
  then inl (ParseError "" value ": extra text")
  else if (day <? 1) || (daysIn month year <? day)
  then inl (ParseError "" value ": day out of range")
  else
    let t := Date year month day hour min sec ns in
    match zone with
    | None => inr t
    | Some zoneOffset => inr (addSec t (- zoneOffset))
    end.

End time.

(** ** The client library [fahapi]

    Of the client's records, the fields the exporter reads.  The client
    itself is outside the exporter: one poll sees it through whether
    [NewAPI] fails and what each of the queries returns, a Go pair of
    a value and an error (nil or not). *)

Module fahapi.

Record SlotInfo : Type := mkSlotInfo {
  ID : string;
  Status : string;
  Description : string
}.

(** [SlotInfo{}], what a map of slots yields for a missing key. *)
Definition zeroSlotInfo : SlotInfo := mkSlotInfo "" "" "".

Record SlotQueueInfo : Type := mkSlotQueueInfo {
  State : string;
  Project : Z;
  Run : Z;
  Clone : Z;
  Gen : Z;
  PercentDone : string;
  ETA : time.Duration;
  PPD : Z;
  CreditEstimate : Z;
  NextAttempt : time.Duration;
  TimeRemaining : time.Duration;
  Attempts : Z;
  Slot : string
}.

Record API : Type := mkAPI {
  NewAPI_err : option error;
  Exec_reply : string -> string * option error;
  Info_reply : list (list any) * option error;
  SlotInfo_reply : list SlotInfo * option error;
  QueueInfo_reply : list SlotQueueInfo * option error
}.

End fahapi.

(** ** [prometheus.BuildFQName] *)

Definition BuildFQName (namespace subsystem name : string) : string :=
  if String.eqb name "" then ""
  else if negb (String.eqb namespace "") && negb (String.eqb subsystem "")
  then namespace +:+ "_" +:+ subsystem +:+ "_" +:+ name
  else if negb (String.eqb namespace "") then namespace +:+ "_" +:+ name
  else if negb (String.eqb subsystem "") then subsystem +:+ "_" +:+ name
  else name.

(** ** The exporter *)

Definition namespace : string := "foldingathome".
Definition subsystemSlot : string := "slot".
Definition subsystemWorkUnit : string := "work_unit".

Record Exporter : Type := mkExporter {
  address : string;
  up : Desc;
  uptime : Desc;
  time_ : Desc;
  version : Desc;
  slotStatus : Desc;
  slotAttempts : Desc;
  slotNextAttempt : Desc;
  slotEstimatedPointsPerDay : Desc;
  workUnitStepsCompletedPercent : Desc;
  workUnitCreditEstimatePoints : Desc;
  workUnitEstimatedCompletionSeconds : Desc;
  workUnitTimeRemainingSeconds : Desc
}.

Definition NewExporter (address : string) : Exporter := {|
  address := address;
  up := NewDesc (BuildFQName namespace "" "up")
          "Could the FAHClient be reached." [];
  uptime := NewDesc (BuildFQName namespace "" "uptime_seconds")
          "Number of seconds since the FAHClient started." [];
  time_ := NewDesc (BuildFQName namespace "" "time_seconds")
          "Current UNIX time according to the server." [];
  version := NewDesc (BuildFQName namespace "" "version")
          "The version of this FAHClient." ["version"];
  slotStatus := NewDesc (BuildFQName namespace subsystemSlot "status")
          "The status of the slot, encoded numerically. 0 => uknown, 1 => ready, 2 => download, 3 => running, 4 => upload, 5 => finishing, 6 => stopping, 7 => paused"
          ["id"; "slot_description"];
  slotAttempts := NewDesc (BuildFQName namespace subsystemSlot "attempts")
          "Number of attempts to download a work unit."
          ["id"; "slot_description"];
  slotNextAttempt :=
    NewDesc (BuildFQName namespace subsystemSlot "next_attempt_seconds")
          "Seconds until the next attempt to download a work unit."
          ["id"; "slot_description"];
  slotEstimatedPointsPerDay :=
    NewDesc (BuildFQName namespace subsystemSlot "estimated_points_per_day")
          "Estimated number of points the slot can produce in a day."
          ["id"; "slot_description"];
  workUnitStepsCompletedPercent :=
    NewDesc (BuildFQName namespace subsystemWorkUnit "steps_completed_percent")
          "Work unit completion percentage."
          ["id"; "slot_description"; "prcg"];
  workUnitCreditEstimatePoints :=
    NewDesc (BuildFQName namespace subsystemWorkUnit "credit_estimate_points")
          "Estimated number of points that will be credited for the work unit."
          ["id"; "slot_description"; "prcg"];
  workUnitEstimatedCompletionSeconds :=
    NewDesc
      (BuildFQName namespace subsystemWorkUnit "estimated_completion_seconds")
          "Estimated seconds until the work unit is completed."
          ["id"; "slot_description"; "prcg"];
  workUnitTimeRemainingSeconds :=
    NewDesc (BuildFQName namespace subsystemWorkUnit "time_remaining_seconds")
          "Seconds until the work unit's deadline, after which the work unit is expired and will be discarded by the client."
          ["id"; "slot_description"; "prcg"]
|}.

(** [Describe]: the descriptors sent on the channel, in order. *)
Definition Describe (e : Exporter) : list Desc :=
  [ up e; uptime e; time_ e; version e; slotStatus e; slotAttempts e;
    slotNextAttempt e; workUnitStepsCompletedPercent e;
    workUnitCreditEstimatePoints e; workUnitEstimatedCompletionSeconds e;
    workUnitTimeRemainingSeconds e ].

(** [for _, x := range l { body }] *)
Fixpoint forEach {A} (body : A -> Go unit) (l : list A) : Go unit :=
  match l with
  | [] => mret tt
  | x :: l' => body x ;; forEach body l'
  end.

(** A map read [m[k]]: the zero value when [k] is missing. *)
Definition mapIndex {V} (zero : V) (m : gmap string V) (k : string) : V :=
  default zero (m !! k).

Definition statusMap : gmap string float64 :=
  {[ "ready" := f64.of_Z 1;
     "download" := f64.of_Z 2;
     "running" := f64.of_Z 3;
     "upload" := f64.of_Z 4;
     "finishing" := f64.of_Z 5;
     "stopping" := f64.of_Z 6;
     "paused" := f64.of_Z 7 ]}.

Section Exporter.

(** Two library functions stay parameters: the Unicode branch of
    [strings.ToLower] and [strconv.ParseFloat(s, 64)]. *)
Variable unicodeLower : string -> string.
Variable ParseFloat : string -> float64 * option error.

Definition ToLower : string -> string := strings.ToLower unicodeLower.

Variable e : Exporter.

Definition parseUptime (uptime_ : string) : Go (option error) :=
  match time.ParseDuration
          (strings.ReplaceAll (strings.TrimSuffix uptime_ "\") " " "") with
  | inl err =>
      logError "Failed to parse uptime" err ;;
      mret (Some err)
  | inr d =>
      send (MustNewConstMetric (uptime e) (time.Seconds d) []) ;;
      mret None
  end.

Definition parseDate (date : string) : Go (option error) :=
  match time.ParseRFC3339 (strings.TrimSuffix date "\") with
  | inl err =>
      logError "Failed to parse date" err ;;
      mret (Some err)
  | inr t =>
      send (MustNewConstMetric (time_ e) (f64.of_Z (time.Unix t)) []) ;;
      mret None
  end.

(** The inner loop of [parseInfo], over [section[1:]]; [true] when
    it returned from the function. *)
Fixpoint parseInfo_pairs (rest : list any) : Go bool :=
  match rest with
  | [] => mret false
  | pairs :: rest' =>
      typedPairs ← assertSlice pairs;
      k0 ← index typedPairs 0;
      k ← assertString k0;
      if String.eqb k "Version" then
        v1 ← index typedPairs 1;
        v ← assertString v1;
        send (MustNewConstMetric (version e) (f64.of_Z 1) [v]) ;;
        mret true
      else parseInfo_pairs rest'
  end.

(** The outer loop of [parseInfo]. *)
Fixpoint parseInfo_sections (info : list (list any)) : Go bool :=
  match info with
  | [] => mret false
  | section :: info' =>
      s0 ← index section 0;
      name ← assertString s0;
      if String.eqb name "FAHClient" then
        found ← parseInfo_pairs (tail section);
        if found : bool then mret true else parseInfo_sections info'
      else parseInfo_sections info'
  end.

Definition parseInfo (info : list (list any)) : Go (option error) :=
  found ← parseInfo_sections info;
  if found : bool then mret None
  else
    let err := errors_New "Version not found in info response" in
    logError "Failed to parse version" err ;;
    mret (Some err).

Definition parseSlotInfo (slotInfo : list fahapi.SlotInfo)
    : Go (option error) :=
  forEach (fun info =>
    send (MustNewConstMetric (slotStatus e)
            (mapIndex (f64.of_Z 0) statusMap (ToLower (fahapi.Status info)))
            [fahapi.ID info; fahapi.Description info]))
    slotInfo ;;
  mret None.

(** The first loop of [parseQueueInfo]: [slotMap[sInfo.ID] = sInfo]. *)
Definition buildSlotMap (slotInfo : list fahapi.SlotInfo)
    : gmap string fahapi.SlotInfo :=
  foldl (fun slotMap sInfo => <[fahapi.ID sInfo := sInfo]> slotMap)
        ∅ slotInfo.

Definition when (b : bool) (body : Go unit) : Go unit :=
  if b then body else mret tt.

(** The body of the second loop of [parseQueueInfo]. *)
Definition queueEntry (slotMap : gmap string fahapi.SlotInfo)
    (qInfo : fahapi.SlotQueueInfo) : Go unit :=
  let id := fahapi.ID (mapIndex fahapi.zeroSlotInfo slotMap
                         (fahapi.Slot qInfo)) in
  let desc := fahapi.Description (mapIndex fahapi.zeroSlotInfo slotMap
                                    (fahapi.Slot qInfo)) in
  let prcg := fmt.d (fahapi.Project qInfo) +:+ " ("
              +:+ fmt.d (fahapi.Run qInfo) +:+ ", "
              +:+ fmt.d (fahapi.Clone qInfo) +:+ ", "
              +:+ fmt.d (fahapi.Gen qInfo) +:+ ")" in
  let state := ToLower (fahapi.State qInfo) in
  when (String.eqb state "download")
    (send (MustNewConstMetric (slotAttempts e)
             (f64.of_Z (fahapi.Attempts qInfo)) [id; desc]) ;;
     send (MustNewConstMetric (slotNextAttempt e)
             (time.Seconds (fahapi.NextAttempt qInfo)) [id; desc])) ;;
  when (String.eqb state "running" || String.eqb state "finishing")
    (send (MustNewConstMetric (slotEstimatedPointsPerDay e)
             (f64.of_Z (fahapi.PPD qInfo)) [id; desc])) ;;
  when (negb ((fahapi.Project qInfo =? 0) && (fahapi.Run qInfo =? 0)
              && (fahapi.Clone qInfo =? 0) && (fahapi.Gen qInfo =? 0)))
    (let '(percentDone, err) :=
       ParseFloat (strings.TrimSuffix (fahapi.PercentDone qInfo) "%") in
     when (bool_decide (err = None))
       (send (MustNewConstMetric (workUnitStepsCompletedPercent e)
                percentDone [id; desc; prcg])) ;;
     send (MustNewConstMetric (workUnitCreditEstimatePoints e)
             (f64.of_Z (fahapi.CreditEstimate qInfo)) [id; desc; prcg]) ;;
     send (MustNewConstMetric (workUnitEstimatedCompletionSeconds e)
             (time.Seconds (fahapi.ETA qInfo)) [id; desc; prcg]) ;;
     send (MustNewConstMetric (workUnitTimeRemainingSeconds e)
             (time.Seconds (fahapi.TimeRemaining qInfo)) [id; desc; prcg])).

Definition parseQueueInfo (slotInfo : list fahapi.SlotInfo)
    (queueInfo : list fahapi.SlotQueueInfo) : Go (option error) :=
  let slotMap := buildSlotMap slotInfo in
  forEach (queueEntry slotMap) queueInfo ;;
  mret None.

(** A client call: the event, then the reply. *)
Definition call {A} (ev : event) (reply : A * option error)
    : Go (A * option error) :=
  emit ev ;; mret reply.

(** [if err != nil { log; up = 0 }] after a query. *)
Definition checkQuery (msg : string) (err : option error) (up_ : float64)
    : Go float64 :=
  match err with
  | Some er => logError msg er ;; mret (f64.of_Z 0)
  | None => mret up_
  end.

(** [if err := parse(...); err != nil { up = 0 }] *)
Definition checkParse (parse : Go (option error)) (up_ : float64)
    : Go float64 :=
  err ← parse;
  match err with
  | Some _ => mret (f64.of_Z 0)
  | None => mret up_
  end.

Definition cmdUptime : string :=
  "eval " +:+ String (ascii_of_nat 34) "$(uptime)\n"
  +:+ String (ascii_of_nat 34) "".
Definition cmdDate : string :=
  "eval " +:+ String (ascii_of_nat 34) "$(date)\n"
  +:+ String (ascii_of_nat 34) "".

Definition Collect (api : fahapi.API) : Go unit :=
  emit (EvNewAPI (address e)) ;;
  match fahapi.NewAPI_err api with
  | Some err =>
      send (MustNewConstMetric (up e) (f64.of_Z 0) []) ;;
      logError "Failed to connect to FAHClient" err
  | None =>
      defer (emit EvClose)
        (let up_ := f64.of_Z 1 in
         '(uptime_, err) ← call (EvExec cmdUptime)
                               (fahapi.Exec_reply api cmdUptime);
         up_ ← checkQuery "Failed to collect uptime from FAHClient" err up_;
         '(date, err) ← call (EvExec cmdDate)
                            (fahapi.Exec_reply api cmdDate);
         up_ ← checkQuery "Failed to collect date from FAHClient" err up_;
         '(info, err) ← call EvInfo (fahapi.Info_reply api);
         up_ ← checkQuery "Failed to collect info from FAHClient" err up_;
         '(slotInfo, err) ← call EvSlotInfo (fahapi.SlotInfo_reply api);
         up_ ← checkQuery "Failed to collect slot-info from FAHClient"
                 err up_;
         '(queueInfo, err) ← call EvQueueInfo (fahapi.QueueInfo_reply api);
         up_ ← checkQuery "Failed to collect queue-info from FAHClient"
                 err up_;
         up_ ← checkParse (parseUptime uptime_) up_;
         up_ ← checkParse (parseDate date) up_;
         up_ ← checkParse (parseInfo info) up_;
         up_ ← checkParse (parseSlotInfo slotInfo) up_;
         up_ ← checkParse (parseQueueInfo slotInfo queueInfo) up_;
         send (MustNewConstMetric (up e) up_ []))
  end.

End Exporter.

(** ** Definitions used by the statements below *)

(** The ordinal of a normalised status text, as the documentation of
    the status gauge lists it: ready 1, download 2, running 3,
    upload 4, finishing 5, stopping 6, paused 7, anything else 0. *)
Definition status_ordinal (status : string) : Z :=
  if String.eqb status "ready" then 1
  else if String.eqb status "download" then 2
  else if String.eqb status "running" then 3
  else if String.eqb status "upload" then 4
  else if String.eqb status "finishing" then 5
  else if String.eqb status "stopping" then 6
  else if String.eqb status "paused" then 7
  else 0.

(** The identity quadruple (project, run, clone, gen) is all zero. *)
Definition zeroQuadruple (q : fahapi.SlotQueueInfo) : Prop :=
  fahapi.Project q = 0 /\ fahapi.Run q = 0
  /\ fahapi.Clone q = 0 /\ fahapi.Gen q = 0.

(** The derived label [<project> (<run>, <clone>, <gen>)]. *)
Definition prcgLabel (q : fahapi.SlotQueueInfo) : string :=
  fmt.d (fahapi.Project q) +:+ " (" +:+ fmt.d (fahapi.Run q) +:+ ", "
  +:+ fmt.d (fahapi.Clone q) +:+ ", " +:+ fmt.d (fahapi.Gen q) +:+ ")".

(** The four work-unit descriptors. *)
Definition workUnitDescs (e : Exporter) : list Desc :=
  [ workUnitStepsCompletedPercent e; workUnitCreditEstimatePoints e;
    workUnitEstimatedCompletionSeconds e; workUnitTimeRemainingSeconds e ].

#[global] Instance Desc_eq_dec : EqDecision Desc.
Proof. solve_decision. Defined.

#[global] Instance error_eq_dec : EqDecision error.
Proof. solve_decision. Defined.

(** All twelve descriptors of the exporter, in the order of its fields. *)
Definition allDescs (e : Exporter) : list Desc :=
  [ up e; uptime e; time_ e; version e; slotStatus e; slotAttempts e;
    slotNextAttempt e; slotEstimatedPointsPerDay e;
    workUnitStepsCompletedPercent e; workUnitCreditEstimatePoints e;
    workUnitEstimatedCompletionSeconds e; workUnitTimeRemainingSeconds e ].

Section Gates.
Variable unicodeLower : string -> string.
Variable ParseFloat : string -> float64 * option error.
Variable e : Exporter.

(** What the joiner owes for one queue entry under the labels [id]
    and [desc], gate by gate: attempts and next attempt in state
    download; points per day in state running or finishing; the
    four work-unit metrics for a non-zero quadruple, percent-done
    only when its text converts. *)
Definition gatedMetrics (id desc : string) (q : fahapi.SlotQueueInfo)
    : list Metric :=
  let state := strings.ToLower unicodeLower (fahapi.State q) in
  (if bool_decide (state = "download")
   then [ MustNewConstMetric (slotAttempts e)
            (f64.of_Z (fahapi.Attempts q)) [id; desc];
          MustNewConstMetric (slotNextAttempt e)
            (time.Seconds (fahapi.NextAttempt q)) [id; desc] ]
   else [])
  ++ (if bool_decide (state = "running" \/ state = "finishing")
      then [ MustNewConstMetric (slotEstimatedPointsPerDay e)
               (f64.of_Z (fahapi.PPD q)) [id; desc] ]
      else [])
  ++ (if bool_decide (zeroQuadruple q) then []
      else
        (match ParseFloat
                 (strings.TrimSuffix (fahapi.PercentDone q) "%") with
         | (percentDone, None) =>
             [ MustNewConstMetric (workUnitStepsCompletedPercent e)
                 percentDone [id; desc; prcgLabel q] ]
         | (_, Some _) => []
         end)
        ++ [ MustNewConstMetric (workUnitCreditEstimatePoints e)
               (f64.of_Z (fahapi.CreditEstimate q))
               [id; desc; prcgLabel q];
             MustNewConstMetric (workUnitEstimatedCompletionSeconds e)
               (time.Seconds (fahapi.ETA q)) [id; desc; prcgLabel q];
             MustNewConstMetric (workUnitTimeRemainingSeconds e)
               (time.Seconds (fahapi.TimeRemaining q))
               [id; desc; prcgLabel q] ]).
End Gates.

(** *** Duration texts *)

(** [s] without its space characters. *)
Fixpoint removeSpaces (s : string) : string :=
  match s with
  | EmptyString => EmptyString
  | String c s' =>
      if Ascii.eqb c " " then removeSpaces s' else String c (removeSpaces s')
  end.

Fixpoint allDigits (s : string) : bool :=
  match s with
  | EmptyString => true
  | String c s' => isDigit c && allDigits s'
  end.

(** The number a digit string denotes in base ten. *)
Fixpoint decimal_from (acc : Z) (s : string) : Z :=
  match s with
  | EmptyString => acc
  | String c s' => decimal_from (acc * 10 + digit_val c) s'
  end.

Definition decimal (s : string) : Z := decimal_from 0 s.

(** The units of an uptime text. *)
Inductive hmsUnit : Type := UnitH | UnitM | UnitS.

Definition unitLetter (u : hmsUnit) : ascii :=
  match u with UnitH => "h" | UnitM => "m" | UnitS => "s" end%char.

Definition unitSeconds (u : hmsUnit) : Z :=
  match u with UnitH => 3600 | UnitM => 60 | UnitS => 1 end.

(** A compact duration text: groups of a digit string and a unit. *)
Fixpoint renderGroups (gs : list (string * hmsUnit)) : string :=
  match gs with
  | [] => EmptyString
  | (ds, u) :: gs' => ds +:+ String (unitLetter u) (renderGroups gs')
  end.

Fixpoint totalSeconds (gs : list (string * hmsUnit)) : Z :=
  match gs with
  | [] => 0
  | (ds, u) :: gs' => decimal ds * unitSeconds u + totalSeconds gs'
  end.

Definition validGroup (g : string * hmsUnit) : Prop :=
  allDigits (fst g) = true /\ fst g <> EmptyString.

(** *** One poll, piece by piece *)

(** The log entry a failed query leaves. *)
Definition queryLog (msg : string) (err : option error) : list event :=
  match err with
  | Some er => [EvLog msg er]
  | None => []
  end.

(** The availability value after a step that returned [err]. *)
Definition upAfter (err : option error) (up_ : float64) : float64 :=
  match err with
  | Some _ => f64.of_Z 0
  | None => up_
  end.

(** The events of the five queries of a poll, with the log entries of
    those that failed. *)
Definition queryEvents (api : fahapi.API) : list event :=
  [EvExec cmdUptime]
  ++ queryLog "Failed to collect uptime from FAHClient"
       (snd (fahapi.Exec_reply api cmdUptime))
  ++ [EvExec cmdDate]
  ++ queryLog "Failed to collect date from FAHClient"
       (snd (fahapi.Exec_reply api cmdDate))
  ++ [EvInfo]
  ++ queryLog "Failed to collect info from FAHClient"
       (snd (fahapi.Info_reply api))
  ++ [EvSlotInfo]
  ++ queryLog "Failed to collect slot-info from FAHClient"
       (snd (fahapi.SlotInfo_reply api))
  ++ [EvQueueInfo]
  ++ queryLog "Failed to collect queue-info from FAHClient"
       (snd (fahapi.QueueInfo_reply api)).

(** Every query of the poll succeeded. *)
Definition queriesOK (api : fahapi.API) : Prop :=
  snd (fahapi.Exec_reply api cmdUptime) = None
  /\ snd (fahapi.Exec_reply api cmdDate) = None
  /\ snd (fahapi.Info_reply api) = None
  /\ snd (fahapi.SlotInfo_reply api) = None
  /\ snd (fahapi.QueueInfo_reply api) = None.

(** A rest that [leadingInt] stops at: empty or not starting with a
    digit. *)
Definition stopsDigits (rest : string) : Prop :=
  match rest with
  | EmptyString => True
  | String c _ => isDigit c = false
  end.

(** A rest a unit ends at: empty or starting with a digit. *)
Definition startsDigit (rest : string) : Prop :=
  match rest with
  | EmptyString => True
  | String c _ => isDigit c = true
  end.

Definition unitNanos (u : hmsUnit) : Z := unitSeconds u * 1000000000.

(** A parser fails closed on [zero]: it returns an error there. *)
Definition failsClosed {A} (parse : A -> Go (option error)) (zero : A)
    : Prop :=
  exists err, result (parse zero) = Returned (Some err).

(** *** Concrete inputs *)

(** An instance of the Unicode branch of [ToLower] for ASCII inputs,
    which never reach it. *)
Definition asciiOnly (s : string) : string := s.

(** An instance of [strconv.ParseFloat] for the examples: unsigned
    decimal integers of at most fifteen digits, on which the
    conversion is exact.  Every other text is answered with a syntax
    error here; this is not a model of the whole function. *)
Definition ParseFloat_int (s : string) : float64 * option error :=
  match time.leadingInt s with
  | Some (n, EmptyString) =>
      if String.eqb s "" || (15 <? String.length s)%nat
      then (f64.of_Z 0, Some (errors_New "strconv.ParseFloat: invalid syntax"))
      else (f64.of_Z n, None)
  | _ => (f64.of_Z 0, Some (errors_New "strconv.ParseFloat: invalid syntax"))
  end.

Definition exporter0 : Exporter := NewExporter "localhost:36330".

(** A client whose connection opens and whose queries all succeed with
    the given info tree and empty slot and queue lists. *)
Definition apiWithInfo (info : list (list any)) : fahapi.API := {|
  fahapi.NewAPI_err := None;
  fahapi.Exec_reply := fun c =>
    if String.eqb c cmdUptime then ("14h 31m  2s\", None)
    else ("2020-05-09T20:04:48Z\", None);
  fahapi.Info_reply := (info, None);
  fahapi.SlotInfo_reply := ([], None);
  fahapi.QueueInfo_reply := ([], None)
|}.

(** A client whose info query fails, returning the nil tree next to
    the error, while the other four queries succeed. *)
Definition apiInfoFails : fahapi.API := {|
  fahapi.NewAPI_err := None;
  fahapi.Exec_reply := fun c =>
    if String.eqb c cmdUptime then ("14h 31m  2s\", None)
    else ("2020-05-09T20:04:48Z\", None);
  fahapi.Info_reply := ([], Some (errors_New "read tcp: i/o timeout"));
  fahapi.SlotInfo_reply := ([], None);
  fahapi.QueueInfo_reply := ([], None)
|}.

(** A client whose connection cannot be opened. *)
Definition apiDown : fahapi.API := {|
  fahapi.NewAPI_err := Some (errors_New "dial tcp: connection refused");
  fahapi.Exec_reply := fun _ => ("", None);
  fahapi.Info_reply := ([], None);
  fahapi.SlotInfo_reply := ([], None);
  fahapi.QueueInfo_reply := ([], None)
|}.

Definition infoOK : list (list any) :=
  [ [ AString "FAHClient"; ASlice [AString "Version"; AString "7.6.9"] ] ].

Definition slot00 : fahapi.SlotInfo := fahapi.mkSlotInfo "00" "RUNNING" "cpu:4".

(** A running work unit with the quadruple (9999, 1, 2, 3). *)
Definition queueRunning (slot : string) : fahapi.SlotQueueInfo := {|
  fahapi.State := "RUNNING";
  fahapi.Project := 9999; fahapi.Run := 1; fahapi.Clone := 2; fahapi.Gen := 3;
  fahapi.PercentDone := "42%";
  fahapi.ETA := 90 * time.Minute;
  fahapi.PPD := 123456;
  fahapi.CreditEstimate := 5678;
  fahapi.NextAttempt := 0;
  fahapi.TimeRemaining := 24 * time.Hour;
  fahapi.Attempts := 0;
  fahapi.Slot := slot
|}.

(** A client with one slot and one running work unit on it. *)
Definition apiRunning : fahapi.API := {|
  fahapi.NewAPI_err := None;
  fahapi.Exec_reply := fahapi.Exec_reply (apiWithInfo infoOK);
  fahapi.Info_reply := (infoOK, None);
  fahapi.SlotInfo_reply := ([slot00], None);
  fahapi.QueueInfo_reply := ([queueRunning "00"], None)
|}.

(** * Properties *)

Open Scope list_scope.

(** ** The effect monad *)

Lemma trace_bind {A B} (m : Go A) (f : A -> Go B) :
  trace (m ≫= f)
  = match result m with
    | Returned a => trace m ++ trace (f a)
    | Panicked _ => trace m
    end.
Proof. unfold mbind, Go_mbind, Go_bind. by destruct (result m). Qed.

Lemma result_bind {A B} (m : Go A) (f : A -> Go B) :
  result (m ≫= f)
  = match result m with
    | Returned a => result (f a)
    | Panicked p => Panicked p
    end.
Proof. unfold mbind, Go_mbind, Go_bind. by destruct (result m). Qed.

Lemma bind_returned {A B} (m : Go A) (f : A -> Go B) a :
  result m = Returned a ->
  m ≫= f = MkGo (trace m ++ trace (f a)) (result (f a)).
Proof. intros H. unfold mbind, Go_mbind, Go_bind. by rewrite H. Qed.

Lemma sent_app (t1 t2 : list event) : sent (t1 ++ t2) = sent t1 ++ sent t2.
Proof.
  induction t1 as [|ev t1 IH]; [done|].
  destruct ev; simpl; by rewrite ?IH.
Qed.

Lemma forEach_returns {A} (body : A -> Go unit) (l : list A) :
  (forall x, result (body x) = Returned tt) ->
  result (forEach body l) = Returned tt
  /\ trace (forEach body l) = concat (map (fun x => trace (body x)) l).
Proof.
  intros Hbody. induction l as [|x l [IHr IHt]]; [done|].
  simpl. rewrite result_bind, trace_bind, Hbody. by rewrite IHr, IHt.
Qed.

(** ** C3: a connection that cannot be opened *)

(** C3. When [fahapi.NewAPI] fails, [Collect] sends exactly one metric,
    [foldingathome_up] with value 0, performs no query, logs the
    failure and returns. *)
Theorem Collect_connection_failure
    (unicodeLower : string -> string)
    (ParseFloat : string -> float64 * option error)
    (addr : string) (api : fahapi.API) (err : error) :
  fahapi.NewAPI_err api = Some err ->
  let run := Collect unicodeLower ParseFloat (NewExporter addr) api in
  result run = Returned tt
  /\ sent (trace run)
     = [ MustNewConstMetric
           (NewDesc "foldingathome_up" "Could the FAHClient be reached." [])
           (f64.of_Z 0) [] ]
  /\ filter (fun ev => isQuery ev = true) (trace run) = []
  /\ trace run
     = [ EvNewAPI addr;
         EvSend (MustNewConstMetric (up (NewExporter addr)) (f64.of_Z 0) []);
         EvLog "Failed to connect to FAHClient" err ].
Proof.
  intros Herr run. subst run. unfold Collect. rewrite Herr.
  repeat split.
Qed.

Lemma Collect_connection_failure_witness :
  fahapi.NewAPI_err apiDown = Some (errors_New "dial tcp: connection refused")
  /\ sent (trace (Collect asciiOnly ParseFloat_int exporter0 apiDown))
     = [ MustNewConstMetric
           (NewDesc "foldingathome_up" "Could the FAHClient be reached." [])
           (f64.of_Z 0) [] ].
Proof.
  split; [reflexivity|].
  apply (Collect_connection_failure asciiOnly ParseFloat_int
           "localhost:36330" apiDown
           (errors_New "dial tcp: connection refused")).
  reflexivity.
Defined.

(** ** C10: what [Describe] announces *)

(** C10. [Describe] sends eleven of the exporter's twelve descriptors:
    every one except [foldingathome_slot_estimated_points_per_day],
    although [Collect] emits a metric of that descriptor for a queue
    entry in state running. *)
Theorem Describe_omits_points_per_day (addr : string) :
  let e := NewExporter addr in
  length (allDescs e) = 12%nat
  /\ NoDup (allDescs e)
  /\ length (Describe e) = 11%nat
  /\ (slotEstimatedPointsPerDay e ∉ Describe e)
  /\ (forall d, (d ∈ allDescs e) -> d <> slotEstimatedPointsPerDay e ->
        (d ∈ Describe e))
  /\ fqName (slotEstimatedPointsPerDay e)
     = "foldingathome_slot_estimated_points_per_day"
  /\ exists m,
       (m ∈ sent (trace (Collect asciiOnly ParseFloat_int e apiRunning)))
       /\ desc m = slotEstimatedPointsPerDay e.
Proof.
  intros e. subst e.
  split; [reflexivity|].
  split; [apply (bool_decide_unpack _); vm_compute; exact I|].
  split; [reflexivity|].
  split; [apply (bool_decide_unpack _); vm_compute; exact I|].
  split.
  { intros d Hin Hne. unfold allDescs in Hin. unfold Describe.
    repeat (apply elem_of_cons in Hin as [->|Hin];
            [first [ done | set_solver ] |]).
    by apply elem_of_nil in Hin. }
  split; [reflexivity|].
  exists (MustNewConstMetric (slotEstimatedPointsPerDay (NewExporter addr))
            (f64.of_Z 123456) ["00"; "cpu:4"]).
  split; [|reflexivity].
  vm_compute. repeat first [ apply list_elem_of_here | apply list_elem_of_further ].
Qed.

(** ** C1: run-time panics in [parseInfo] *)

(** C1. [Collect] does not return on every info tree: with the
    connection open and every query answered, a tree holding an empty
    section ends the poll in an index panic, and a section whose
    elements are not string-keyed pairs ends it in a conversion or
    index panic.  The deferred [Close] still runs; the availability
    metric is never sent. *)
Theorem Collect_panics_on_malformed_info
    (unicodeLower : string -> string)
    (ParseFloat : string -> float64 * option error) :
  let run info :=
    Collect unicodeLower ParseFloat exporter0 (apiWithInfo info) in
  result (run [[]]) = Panicked (IndexOutOfRange 0 0)
  /\ result (run [[ANumber (f64.of_Z 1)]])
     = Panicked (InterfaceConversion "string")
  /\ result (run [[AString "FAHClient"; AString "Version"]])
     = Panicked (InterfaceConversion "[]interface {}")
  /\ result (run [[AString "FAHClient"; ASlice []]])
     = Panicked (IndexOutOfRange 0 0)
  /\ result (run [[AString "FAHClient"; ASlice [AString "Version"]]])
     = Panicked (IndexOutOfRange 1 1)
  /\ result (run [[AString "FAHClient"; ASlice [AString "Version"; ANil]]])
     = Panicked (InterfaceConversion "string")
  /\ last (trace (run [[]])) = Some EvClose
  /\ Forall (fun m => desc m <> up exporter0) (sent (trace (run [[]]))).
Proof.
  intros run. subst run.
  repeat (split; [reflexivity|]).
  vm_compute. repeat constructor; discriminate.
Qed.

(** ** C2: the availability metric *)

(** C2, at the input of C1: the connection opens, the five queries
    succeed, uptime and date parse, and yet [foldingathome_up] is sent
    zero times, because [parseInfo] panics on the empty section before
    [Collect] reaches its last statement. *)
Theorem Collect_up_missing_on_empty_section
    (unicodeLower : string -> string)
    (ParseFloat : string -> float64 * option error) :
  let run := Collect unicodeLower ParseFloat exporter0 (apiWithInfo [[]]) in
  fahapi.NewAPI_err (apiWithInfo [[]]) = None
  /\ result run = Panicked (IndexOutOfRange 0 0)
  /\ map (fun m => fqName (desc m)) (sent (trace run))
     = ["foldingathome_uptime_seconds"; "foldingathome_time_seconds"]
  /\ filter (fun m => desc m = up exporter0) (sent (trace run)) = [].
Proof.
  intros run. subst run. repeat split.
Qed.

(** ** The field parsers return *)

Section Parsers.
Variable unicodeLower : string -> string.
Variable ParseFloat : string -> float64 * option error.
Variable e : Exporter.

Lemma parseUptime_spec (s : string) :
  parseUptime e s
  = match time.ParseDuration
            (strings.ReplaceAll (strings.TrimSuffix s "\") " " "") with
    | inl err => MkGo [EvLog "Failed to parse uptime" err]
                      (Returned (Some err))
    | inr d => MkGo [EvSend (MustNewConstMetric (uptime e)
                               (time.Seconds d) [])]
                    (Returned None)
    end.
Proof. unfold parseUptime. by destruct (time.ParseDuration _). Qed.

Lemma parseDate_spec (s : string) :
  parseDate e s
  = match time.ParseRFC3339 (strings.TrimSuffix s "\") with
    | inl err => MkGo [EvLog "Failed to parse date" err]
                      (Returned (Some err))
    | inr t => MkGo [EvSend (MustNewConstMetric (time_ e)
                               (f64.of_Z (time.Unix t)) [])]
                    (Returned None)
    end.
Proof. unfold parseDate. by destruct (time.ParseRFC3339 _). Qed.

Lemma parseSlotInfo_spec (slotInfo : list fahapi.SlotInfo) :
  parseSlotInfo unicodeLower e slotInfo
  = MkGo (map (fun info =>
                 EvSend (MustNewConstMetric (slotStatus e)
                           (mapIndex (f64.of_Z 0) statusMap
                              (strings.ToLower unicodeLower
                                 (fahapi.Status info)))
                           [fahapi.ID info; fahapi.Description info]))
              slotInfo)
         (Returned None).
Proof.
  unfold parseSlotInfo.
  induction slotInfo as [|info l IH]; [done|].
  simpl. unfold mbind, Go_mbind, Go_bind in *. simpl in *.
  destruct (result (forEach _ l)) eqn:Hr; simpl in *.
  - injection IH as IHt. rewrite app_nil_r in IHt.
    by rewrite app_nil_r, IHt.
  - discriminate.
Qed.

Lemma queueEntry_spec (slotMap : gmap string fahapi.SlotInfo)
    (q : fahapi.SlotQueueInfo) :
  queueEntry unicodeLower ParseFloat e slotMap q
  = MkGo (map EvSend
            (gatedMetrics unicodeLower ParseFloat e
               (fahapi.ID (mapIndex fahapi.zeroSlotInfo slotMap
                             (fahapi.Slot q)))
               (fahapi.Description (mapIndex fahapi.zeroSlotInfo slotMap
                                      (fahapi.Slot q)))
               q))
         (Returned tt).
Proof.
  unfold queueEntry, gatedMetrics, ToLower, prcgLabel, zeroQuadruple.
  set (state := strings.ToLower unicodeLower (fahapi.State q)).
  destruct (String.eqb_spec state "download") as [Hd|Hd];
    destruct (String.eqb_spec state "running") as [Hr|Hr];
    destruct (String.eqb_spec state "finishing") as [Hf|Hf];
    try congruence;
    destruct (Z.eqb_spec (fahapi.Project q) 0) as [Hp|Hp];
    destruct (Z.eqb_spec (fahapi.Run q) 0) as [Hru|Hru];
    destruct (Z.eqb_spec (fahapi.Clone q) 0) as [Hc|Hc];
    destruct (Z.eqb_spec (fahapi.Gen q) 0) as [Hg|Hg];
    repeat case_bool_decide; try tauto; try congruence;
    simpl;
    try (destruct (ParseFloat _) as [pd [er|]]; simpl;
         repeat case_bool_decide; try congruence);
    reflexivity.
Qed.

Lemma parseQueueInfo_spec (slotInfo : list fahapi.SlotInfo)
    (queueInfo : list fahapi.SlotQueueInfo) :
  parseQueueInfo unicodeLower ParseFloat e slotInfo queueInfo
  = MkGo (concat (map (fun q =>
                    trace (queueEntry unicodeLower ParseFloat e
                             (buildSlotMap slotInfo) q))
                    queueInfo))
         (Returned None).
Proof.
  unfold parseQueueInfo.
  destruct (forEach_returns
              (queueEntry unicodeLower ParseFloat e (buildSlotMap slotInfo))
              queueInfo) as [Hr Ht].
  { intros q. by rewrite queueEntry_spec. }
  unfold mbind, Go_mbind, Go_bind. rewrite Hr, Ht. simpl.
  by rewrite app_nil_r.
Qed.

End Parsers.

(** Case analysis on the first string comparison of the goal. *)
Ltac case_string_eqb :=
  match goal with
  | |- context [String.eqb ?s ?k] =>
      destruct (String.eqb_spec s k) as [->|?]
  end.

Lemma sent_map_EvSend (l : list Metric) : sent (map EvSend l) = l.
Proof. induction l as [|m l IH]; [done|]. simpl. by rewrite IH. Qed.

Lemma sent_map_EvSend_map {A} (f : A -> Metric) (l : list A) :
  map EvSend (sent (map (fun x => EvSend (f x)) l))
  = map (fun x => EvSend (f x)) l.
Proof. induction l as [|x l IH]; [done|]. simpl. by rewrite IH. Qed.

(** ** C6: the slot status parser *)

(** The status table of [parseSlotInfo] is the documented ordinal. *)
Lemma statusMap_ordinal (status : string) :
  mapIndex (f64.of_Z 0) statusMap status = f64.of_Z (status_ordinal status).
Proof.
  unfold status_ordinal, mapIndex.
  repeat (case_string_eqb; [reflexivity|]).
  unfold statusMap.
  rewrite !lookup_insert_ne by congruence.
  by rewrite lookup_singleton_ne by congruence.
Qed.

Lemma parseSlotInfo_sent (unicodeLower : string -> string) (e : Exporter)
    (slotInfo : list fahapi.SlotInfo) :
  sent (trace (parseSlotInfo unicodeLower e slotInfo))
  = map (fun info =>
           MustNewConstMetric (slotStatus e)
             (f64.of_Z (status_ordinal
                          (strings.ToLower unicodeLower
                             (fahapi.Status info))))
             [fahapi.ID info; fahapi.Description info])
        slotInfo.
Proof.
  rewrite parseSlotInfo_spec. cbn [trace].
  induction slotInfo as [|info l IH]; [done|].
  cbn [map sent]. by rewrite IH, statusMap_ordinal.
Qed.

(** C6. For every slot list, [parseSlotInfo] sends exactly one status
    gauge per slot, in order, labelled with the slot's id and
    description (label names [id], [slot_description]); its value is
    the ordinal of the lower-cased status text (ready 1, download 2,
    running 3, upload 4, finishing 5, stopping 6, paused 7, any other
    text, the empty one included, 0); and it returns a nil error. *)
Theorem parseSlotInfo_status_gauges
    (unicodeLower : string -> string) (addr : string)
    (slotInfo : list fahapi.SlotInfo) :
  let e := NewExporter addr in
  let run := parseSlotInfo unicodeLower e slotInfo in
  result run = Returned None
  /\ trace run = map EvSend (sent (trace run))
  /\ sent (trace run)
     = map (fun info =>
              MustNewConstMetric (slotStatus e)
                (f64.of_Z (status_ordinal
                             (strings.ToLower unicodeLower
                                (fahapi.Status info))))
                [fahapi.ID info; fahapi.Description info])
           slotInfo
  /\ fqName (slotStatus e) = "foldingathome_slot_status"
  /\ variableLabels (slotStatus e) = ["id"; "slot_description"]
  /\ map status_ordinal
       ["ready"; "download"; "running"; "upload"; "finishing"; "stopping";
        "paused"; ""; "unknown"]
     = [1; 2; 3; 4; 5; 6; 7; 0; 0]
  /\ (forall s, (s ∉ ["ready"; "download"; "running"; "upload"; "finishing";
                     "stopping"; "paused"]) -> status_ordinal s = 0)
  /\ map (strings.ToLower unicodeLower) ["RUNNING"; "Paused"; "ready"; ""]
     = ["running"; "paused"; "ready"; ""].
Proof.
  intros e run. subst run.
  split; [by rewrite parseSlotInfo_spec|].
  split.
  { rewrite parseSlotInfo_spec. cbn [trace].
    by rewrite sent_map_EvSend_map. }
  split; [apply parseSlotInfo_sent|].
  split; [done|]. split; [done|]. split; [done|].
  split; [|done].
  intros s Hs'. unfold status_ordinal.
  repeat (case_string_eqb; [exfalso; apply Hs'; set_solver|]).
  done.
Qed.

(** ** C4 and C9: the queue/slot joiner *)

Lemma queueEntry_sent (unicodeLower : string -> string)
    (ParseFloat : string -> float64 * option error) (e : Exporter)
    (slotMap : gmap string fahapi.SlotInfo) (q : fahapi.SlotQueueInfo) :
  sent (trace (queueEntry unicodeLower ParseFloat e slotMap q))
  = gatedMetrics unicodeLower ParseFloat e
      (fahapi.ID (mapIndex fahapi.zeroSlotInfo slotMap (fahapi.Slot q)))
      (fahapi.Description
         (mapIndex fahapi.zeroSlotInfo slotMap (fahapi.Slot q)))
      q.
Proof. rewrite queueEntry_spec. apply sent_map_EvSend. Qed.

Lemma sent_concat (ts : list (list event)) :
  sent (concat ts) = concat (map sent ts).
Proof.
  induction ts as [|t ts IH]; [done|].
  simpl. by rewrite sent_app, IH.
Qed.

Lemma parseQueueInfo_sent (unicodeLower : string -> string)
    (ParseFloat : string -> float64 * option error) (e : Exporter)
    (slotInfo : list fahapi.SlotInfo)
    (queueInfo : list fahapi.SlotQueueInfo) :
  sent (trace (parseQueueInfo unicodeLower ParseFloat e slotInfo queueInfo))
  = concat (map (fun q =>
              sent (trace (queueEntry unicodeLower ParseFloat e
                             (buildSlotMap slotInfo) q)))
              queueInfo).
Proof.
  rewrite parseQueueInfo_spec. cbn [trace].
  by rewrite sent_concat, map_map.
Qed.

(** The slot map holds exactly the ids of the slot list. *)
Lemma buildSlotMap_lookup_None (slotInfo : list fahapi.SlotInfo)
    (k : string) :
  k ∉ map fahapi.ID slotInfo -> buildSlotMap slotInfo !! k = None.
Proof.
  unfold buildSlotMap.
  assert (H : forall (acc : gmap string fahapi.SlotInfo),
             acc !! k = None -> k ∉ map fahapi.ID slotInfo ->
             foldl (fun slotMap sInfo => <[fahapi.ID sInfo := sInfo]> slotMap)
                   acc slotInfo !! k = None).
  { induction slotInfo as [|s l IH]; intros acc Hacc Hk; [done|].
    simpl. apply IH.
    - rewrite lookup_insert_ne; [done|]. intros Heq. apply Hk.
      simpl. rewrite Heq. apply list_elem_of_here.
    - intros Hin. apply Hk. simpl. by apply list_elem_of_further. }
  intros Hk. by apply H.
Qed.

(** C4. The joiner returns a nil error and sends, entry by entry, what
    [queueEntry] sends.  For an entry with the quadruple (0,0,0,0) none
    of the metrics sent is one of the four work-unit metrics, whatever
    its state.  For an entry with another quadruple, lower-cased state
    [running] and a percent text that converts, exactly five metrics
    are sent: estimated points per day, then percent done, credit
    estimate, estimated completion and time remaining; attempts and
    next-attempt-seconds are not among them. *)
Theorem joiner_gating
    (unicodeLower : string -> string)
    (ParseFloat : string -> float64 * option error)
    (addr : string)
    (slotInfo : list fahapi.SlotInfo)
    (queueInfo : list fahapi.SlotQueueInfo) :
  let e := NewExporter addr in
  let entry q :=
    sent (trace (queueEntry unicodeLower ParseFloat e
                   (buildSlotMap slotInfo) q)) in
  let run := parseQueueInfo unicodeLower ParseFloat e slotInfo queueInfo in
  result run = Returned None
  /\ sent (trace run) = concat (map entry queueInfo)
  /\ (forall q, zeroQuadruple q ->
        Forall (fun m => desc m ∉ workUnitDescs e) (entry q))
  /\ (forall q percentDone,
        ~ zeroQuadruple q ->
        strings.ToLower unicodeLower (fahapi.State q) = "running" ->
        ParseFloat (strings.TrimSuffix (fahapi.PercentDone q) "%")
        = (percentDone, None) ->
        let id := fahapi.ID (mapIndex fahapi.zeroSlotInfo
                               (buildSlotMap slotInfo) (fahapi.Slot q)) in
        let description :=
          fahapi.Description (mapIndex fahapi.zeroSlotInfo
                                (buildSlotMap slotInfo) (fahapi.Slot q)) in
        entry q
        = [ MustNewConstMetric (slotEstimatedPointsPerDay e)
              (f64.of_Z (fahapi.PPD q)) [id; description];
            MustNewConstMetric (workUnitStepsCompletedPercent e)
              percentDone [id; description; prcgLabel q];
            MustNewConstMetric (workUnitCreditEstimatePoints e)
              (f64.of_Z (fahapi.CreditEstimate q))
              [id; description; prcgLabel q];
            MustNewConstMetric (workUnitEstimatedCompletionSeconds e)
              (time.Seconds (fahapi.ETA q)) [id; description; prcgLabel q];
            MustNewConstMetric (workUnitTimeRemainingSeconds e)
              (time.Seconds (fahapi.TimeRemaining q))
              [id; description; prcgLabel q] ]
        /\ Forall (fun m => desc m <> slotAttempts e
                            /\ desc m <> slotNextAttempt e) (entry q)).
Proof.
  intros e entry run. subst run entry.
  split; [by rewrite parseQueueInfo_spec|].
  split; [apply parseQueueInfo_sent|].
  split.
  - intros q Hz. rewrite queueEntry_sent. unfold gatedMetrics.
    rewrite (bool_decide_eq_true_2 _ Hz), app_nil_r.
    repeat case_bool_decide; repeat constructor;
      apply (bool_decide_unpack _); vm_compute; exact I.
  - intros q pd Hnz Hrun Hpf id description.
    rewrite queueEntry_sent. unfold gatedMetrics.
    rewrite Hrun, Hpf, (bool_decide_eq_false_2 _ Hnz).
    split; [reflexivity|].
    cbn. repeat constructor; discriminate.
Qed.

Lemma joiner_gating_witness :
  zeroQuadruple (fahapi.mkSlotQueueInfo "RUNNING" 0 0 0 0 "42%" 0 0 0 0 0 0 "00")
  /\ ~ zeroQuadruple (queueRunning "00")
  /\ map (fun m => fqName (desc m))
       (sent (trace (queueEntry asciiOnly ParseFloat_int exporter0
                       (buildSlotMap [slot00]) (queueRunning "00"))))
     = [ "foldingathome_slot_estimated_points_per_day";
         "foldingathome_work_unit_steps_completed_percent";
         "foldingathome_work_unit_credit_estimate_points";
         "foldingathome_work_unit_estimated_completion_seconds";
         "foldingathome_work_unit_time_remaining_seconds" ]
  /\ Forall (fun m => desc m ∉ workUnitDescs exporter0)
       (sent (trace (queueEntry asciiOnly ParseFloat_int exporter0
                       (buildSlotMap [slot00])
                       (fahapi.mkSlotQueueInfo "RUNNING" 0 0 0 0 "42%"
                          0 0 0 0 0 0 "00")))).
Proof.
  pose proof (joiner_gating asciiOnly ParseFloat_int "localhost:36330"
                [slot00] [queueRunning "00"]) as (_ & _ & Hzero & Hrun).
  assert (Hnz : ~ zeroQuadruple (queueRunning "00")).
  { intros (H & _). discriminate H. }
  assert (Hz : zeroQuadruple
                 (fahapi.mkSlotQueueInfo "RUNNING" 0 0 0 0 "42%"
                    0 0 0 0 0 0 "00")).
  { repeat split. }
  split; [exact Hz|]. split; [exact Hnz|].
  split.
  - destruct (Hrun (queueRunning "00") (f64.of_Z 42) Hnz eq_refl eq_refl)
      as [Heq _].
    unfold exporter0. rewrite Heq. reflexivity.
  - exact (Hzero _ Hz).
Defined.

(** The gates do not look at the labels. *)
Lemma gatedMetrics_labels_irrelevant (unicodeLower : string -> string)
    (ParseFloat : string -> float64 * option error) (e : Exporter)
    (id1 desc1 id2 desc2 : string) (q : fahapi.SlotQueueInfo) :
  map (fun m => (desc m, value m))
      (gatedMetrics unicodeLower ParseFloat e id1 desc1 q)
  = map (fun m => (desc m, value m))
        (gatedMetrics unicodeLower ParseFloat e id2 desc2 q).
Proof.
  unfold gatedMetrics.
  repeat case_bool_decide;
    try destruct (ParseFloat (strings.TrimSuffix (fahapi.PercentDone q) "%"))
      as [pd [er|]];
    reflexivity.
Qed.

Lemma gatedMetrics_labels (unicodeLower : string -> string)
    (ParseFloat : string -> float64 * option error) (e : Exporter)
    (id description : string) (q : fahapi.SlotQueueInfo) :
  Forall (fun m => take 2 (labelValues m) = [id; description])
         (gatedMetrics unicodeLower ParseFloat e id description q).
Proof.
  unfold gatedMetrics.
  repeat case_bool_decide;
    try destruct (ParseFloat (strings.TrimSuffix (fahapi.PercentDone q) "%"))
      as [pd [er|]];
    repeat constructor.
Qed.

(** C9. A queue record whose slot id matches no record of the slot
    list makes the joiner send the same metrics, with the same values,
    as the gates of its state and quadruple open for any labels; all
    of them carry the empty string as [id] and as [slot_description];
    neither the entry nor the joiner panics, and the joiner returns a
    nil error. *)
Theorem joiner_dangling_slot
    (unicodeLower : string -> string)
    (ParseFloat : string -> float64 * option error)
    (addr : string)
    (slotInfo : list fahapi.SlotInfo)
    (q : fahapi.SlotQueueInfo) :
  fahapi.Slot q ∉ map fahapi.ID slotInfo ->
  let e := NewExporter addr in
  let run := queueEntry unicodeLower ParseFloat e (buildSlotMap slotInfo) q in
  result run = Returned tt
  /\ sent (trace run) = gatedMetrics unicodeLower ParseFloat e "" "" q
  /\ (forall id description,
        map (fun m => (desc m, value m)) (sent (trace run))
        = map (fun m => (desc m, value m))
              (gatedMetrics unicodeLower ParseFloat e id description q))
  /\ Forall (fun m => take 2 (labelValues m) = [""; ""]) (sent (trace run))
  /\ (forall before after,
        let all :=
          parseQueueInfo unicodeLower ParseFloat e slotInfo
            (before ++ q :: after) in
        result all = Returned None
        /\ exists m1 m2,
             sent (trace all) = m1 ++ sent (trace run) ++ m2).
Proof.
  intros Hdangling e run. subst run.
  assert (Hsent : sent (trace (queueEntry unicodeLower ParseFloat e
                                 (buildSlotMap slotInfo) q))
                  = gatedMetrics unicodeLower ParseFloat e "" "" q).
  { rewrite queueEntry_sent. unfold mapIndex.
    by rewrite (buildSlotMap_lookup_None _ _ Hdangling). }
  split; [by rewrite queueEntry_spec|].
  split; [exact Hsent|].
  split.
  { intros id description. rewrite Hsent.
    apply gatedMetrics_labels_irrelevant. }
  split; [rewrite Hsent; apply gatedMetrics_labels|].
  intros before after all. subst all.
  split; [by rewrite parseQueueInfo_spec|].
  rewrite parseQueueInfo_sent, map_app, concat_app. simpl.
  eauto.
Qed.

Lemma joiner_dangling_slot_witness :
  (fahapi.Slot (queueRunning "07") ∉ map fahapi.ID [slot00])
  /\ sent (trace (queueEntry asciiOnly ParseFloat_int exporter0
                    (buildSlotMap [slot00]) (queueRunning "07")))
     = gatedMetrics asciiOnly ParseFloat_int exporter0 "" ""
         (queueRunning "07")
  /\ map labelValues
       (gatedMetrics asciiOnly ParseFloat_int exporter0 "" ""
          (queueRunning "07"))
     = [ [""; ""]; [""; ""; "9999 (1, 2, 3)"]; [""; ""; "9999 (1, 2, 3)"];
         [""; ""; "9999 (1, 2, 3)"]; [""; ""; "9999 (1, 2, 3)"] ].
Proof.
  assert (H : fahapi.Slot (queueRunning "07") ∉ map fahapi.ID [slot00]).
  { apply (bool_decide_unpack _). vm_compute. exact I. }
  split; [exact H|].
  split; [|reflexivity].
  apply (joiner_dangling_slot asciiOnly ParseFloat_int "localhost:36330"
           [slot00] (queueRunning "07") H).
Defined.

(** ** C5: the parsers on the zero value *)

(** [parseInfo] on the empty tree. *)
Lemma parseInfo_nil (e : Exporter) :
  parseInfo e []
  = MkGo [EvLog "Failed to parse version"
            (errors_New "Version not found in info response")]
         (Returned (Some (errors_New "Version not found in info response"))).
Proof. reflexivity. Qed.

(** On the value a failed query leaves behind (the empty text, the
    empty tree, the empty list) the uptime, date and info parsers log,
    send no metric and return an error; the slot-list parser and the
    queue-list joiner send no metric and return a nil error. *)
Lemma parsers_on_zero_value
    (unicodeLower : string -> string)
    (ParseFloat : string -> float64 * option error)
    (e : Exporter) (slotInfo : list fahapi.SlotInfo) :
  parseUptime e ""
  = MkGo [EvLog "Failed to parse uptime" (ErrInvalidDuration "")]
         (Returned (Some (ErrInvalidDuration "")))
  /\ parseDate e ""
     = MkGo [EvLog "Failed to parse date" (ParseError "2006" "" "")]
            (Returned (Some (ParseError "2006" "" "")))
  /\ parseInfo e []
     = MkGo [EvLog "Failed to parse version"
               (errors_New "Version not found in info response")]
            (Returned
               (Some (errors_New "Version not found in info response")))
  /\ parseSlotInfo unicodeLower e [] = MkGo [] (Returned None)
  /\ parseQueueInfo unicodeLower ParseFloat e slotInfo []
     = MkGo [] (Returned None)
  /\ failsClosed (parseUptime e) ""
  /\ failsClosed (parseDate e) ""
  /\ failsClosed (parseInfo e) []
  /\ ~ failsClosed (parseSlotInfo unicodeLower e) []
  /\ ~ failsClosed (parseQueueInfo unicodeLower ParseFloat e slotInfo) [].
Proof.
  repeat (split; [reflexivity|]).
  split; [by eexists|]. split; [by eexists|]. split; [by eexists|].
  split; intros [err Herr]; discriminate Herr.
Qed.


(** ** The [strings] helpers *)

Lemma length_append (s t : string) :
  String.length (s +:+ t) = (String.length s + String.length t)%nat.
Proof. induction s as [|c s IH]; simpl; [done|by rewrite IH]. Qed.

Lemma drop_length_append (s t : string) :
  strings.drop (String.length s) (s +:+ t) = t.
Proof. induction s as [|c s IH]; simpl; [by destruct t|done]. Qed.

Lemma take_length_append (s t : string) :
  strings.take (String.length s) (s +:+ t) = s.
Proof. induction s as [|c s IH]; simpl; [done|by rewrite IH]. Qed.

(** [TrimSuffix] takes a suffix off. *)
Lemma TrimSuffix_append (s suffix : string) :
  strings.TrimSuffix (s +:+ suffix) suffix = s.
Proof.
  unfold strings.TrimSuffix, strings.HasSuffix.
  rewrite length_append.
  replace (String.length s + String.length suffix - String.length suffix)%nat
    with (String.length s) by lia.
  rewrite drop_length_append, take_length_append, String.eqb_refl.
  replace (String.length suffix <=? String.length s + String.length suffix)%nat
    with true; [done|].
  symmetry. apply Nat.leb_le. lia.
Qed.

(** ** C8: the date parser *)




(** ** C7: the uptime parser *)

(** [ReplaceAll s " " ""] drops every space. *)
Lemma ReplaceAll_spaces (s : string) :
  strings.ReplaceAll s " " "" = removeSpaces s.
Proof.
  unfold strings.ReplaceAll.
  induction s as [|c s IH]; [done|].
  cbn [strings.replace_from removeSpaces strings.HasPrefix String.length].
  replace (strings.HasPrefix s "") with true by (by destruct s).
  destruct (Ascii.eqb c " "); simpl; by rewrite IH.
Qed.

Lemma append_cons (c : ascii) (s t : string) :
  String c s +:+ t = String c (s +:+ t).
Proof. reflexivity. Qed.

Lemma append_nil (t : string) : "" +:+ t = t.
Proof. reflexivity. Qed.

Lemma isDigit_bounds (c : ascii) :
  isDigit c = true -> 0 <= digit_val c <= 9.
Proof.
  unfold isDigit, digit_val. intros H.
  apply andb_true_iff in H as [H1 H2].
  apply Z.leb_le in H1, H2. lia.
Qed.

Lemma decimal_from_ge (s : string) (x : Z) :
  allDigits s = true -> 0 <= x -> x <= decimal_from x s.
Proof.
  revert x. induction s as [|c s IH]; intros x Hd Hx; simpl in *; [lia|].
  apply andb_true_iff in Hd as [Hc Hs].
  pose proof (isDigit_bounds c Hc).
  specialize (IH (x * 10 + digit_val c) Hs). lia.
Qed.

Lemma leadingInt_from_digits (ds rest : string) (x : Z) :
  allDigits ds = true -> stopsDigits rest -> 0 <= x ->
  decimal_from x ds <= 2 ^ 63 / 10 ->
  time.leadingInt_from x (ds +:+ rest) = Some (decimal_from x ds, rest).
Proof.
  revert x. induction ds as [|c ds IH]; intros x Hd Hrest Hx Hb.
  - rewrite append_nil. destruct rest as [|c rest]; [done|].
    simpl in Hrest. simpl. by rewrite Hrest.
  - simpl in Hd. apply andb_true_iff in Hd as [Hc Hds].
    pose proof (isDigit_bounds c Hc) as Hcv.
    rewrite append_cons.
    cbn [time.leadingInt_from decimal_from] in *. rewrite Hc.
    assert (Hx' : 0 <= x * 10 + digit_val c) by lia.
    pose proof (decimal_from_ge ds _ Hds Hx') as Hge.
    assert (H10 : 2 ^ 63 / 10 = 922337203685477580) by reflexivity.
    assert (H63 : 2 ^ 63 = 9223372036854775808) by reflexivity.
    rewrite H10 in *. rewrite H63.
    destruct (Z.gtb_spec x 922337203685477580); [lia|].
    destruct (Z.gtb_spec (x * 10 + digit_val c) 9223372036854775808); [lia|].
    apply IH; [done|done|lia|lia].
Qed.

Lemma unitLen_startsDigit (rest : string) :
  startsDigit rest -> time.unitLen rest = O.
Proof.
  destruct rest as [|c rest]; [done|]. simpl. intros ->.
  by rewrite orb_true_r.
Qed.

(** One round of the loop of [ParseDuration] on a group of digits and
    a unit letter. *)
Lemma durationLoop_group (fuel : nat) (orig : string) (d : Z)
    (ds : string) (u : hmsUnit) (rest : string) :
  allDigits ds = true -> ds <> EmptyString -> startsDigit rest ->
  0 <= d -> d + decimal ds * unitNanos u <= 2 ^ 63 ->
  time.durationLoop (S fuel) orig d (ds +:+ String (unitLetter u) rest)
  = time.durationLoop fuel orig (d + decimal ds * unitNanos u) rest.
Proof.
  intros Hds Hne Hrest Hd Hb.
  assert (H63 : 2 ^ 63 = 9223372036854775808) by reflexivity.
  assert (H64 : 2 ^ 64 = 18446744073709551616) by reflexivity.
  assert (Hdec : 0 <= decimal ds).
  { unfold decimal. by apply decimal_from_ge. }
  assert (Hun : 1000000000 <= unitNanos u) by (destruct u; cbv; congruence).
  assert (Hint : time.leadingInt (ds +:+ String (unitLetter u) rest)
                 = Some (decimal ds, String (unitLetter u) rest)).
  { unfold time.leadingInt, decimal. apply leadingInt_from_digits;
      [done|by destruct u|lia|].
    fold (decimal ds). change (2 ^ 63 / 10) with 922337203685477580. nia. }
  destruct ds as [|c0 ds']; [done|].
  simpl in Hds. apply andb_true_iff in Hds as [Hc0 Hds'].
  rewrite append_cons in *.
  cbn [time.durationLoop]. rewrite Hc0, orb_true_r. cbn [negb].
  rewrite Hint.
  assert (Hlen : (String.length (String c0 (ds' +:+ String (unitLetter u) rest))
                  =? String.length (String (unitLetter u) rest))%nat = false).
  { apply Nat.eqb_neq. cbn [String.length]. rewrite length_append.
    cbn [String.length]. lia. }
  rewrite Hlen.
  assert (Hq : decimal (String c0 ds') <= 2 ^ 63 / unitNanos u).
  { apply Z.div_le_lower_bound; lia. }
  assert (Hmap : time.unitMap !! String (unitLetter u) "" = Some (unitNanos u))
    by (by destruct u).
  assert (Hnd : isDigit (unitLetter u) = false) by (by destruct u).
  assert (Hm : match String (unitLetter u) rest with
               | String "."%char s1' =>
                   let '(f, scale, s2) := time.leadingFraction s1' in
                   (f, scale,
                    negb (String.length s1' =? String.length s2)%nat, s2)
               | _ => (0, f64.of_Z 1, false, String (unitLetter u) rest)
               end = (0, f64.of_Z 1, false, String (unitLetter u) rest))
    by (by destruct u).
  rewrite Hm. cbn [negb andb time.unitLen].
  replace (Ascii.eqb (unitLetter u) ".") with false by (by destruct u).
  rewrite Hnd. cbn [orb].
  rewrite (unitLen_startsDigit rest Hrest).
  cbn [Nat.eqb strings.take strings.drop]. rewrite Hmap.
  destruct (Z.gtb_spec (decimal (String c0 ds')) (2 ^ 63 / unitNanos u));
    [lia|].
  cbn [Z.gtb Z.compare andb].
  rewrite Z.mod_small by lia.
  destruct (Z.gtb_spec (d + decimal (String c0 ds') * unitNanos u) (2 ^ 63));
    [lia|done].
Qed.

Lemma totalSeconds_nonneg (gs : list (string * hmsUnit)) :
  Forall validGroup gs -> 0 <= totalSeconds gs.
Proof.
  induction 1 as [|[ds u] gs [Hd _] _ IH]; simpl in *; [lia|].
  assert (0 <= decimal ds) by (by apply decimal_from_ge).
  destruct u; simpl; lia.
Qed.

Lemma renderGroups_startsDigit (gs : list (string * hmsUnit)) :
  Forall validGroup gs -> startsDigit (renderGroups gs).
Proof.
  destruct 1 as [|[ds u] gs [Hd Hne] _]; [done|].
  simpl in *. destruct ds as [|c ds]; [done|].
  rewrite append_cons. simpl in *. by apply andb_true_iff in Hd as [-> _].
Qed.

Lemma renderGroups_length (gs : list (string * hmsUnit)) :
  (length gs <= String.length (renderGroups gs))%nat.
Proof.
  induction gs as [|[ds u] gs IH]; simpl; [lia|].
  rewrite length_append. simpl. lia.
Qed.

(** The loop of [ParseDuration] on a text of h/m/s groups adds up the
    groups. *)
Lemma durationLoop_groups (orig : string) (gs : list (string * hmsUnit)) :
  Forall validGroup gs ->
  forall (fuel : nat) (d : Z),
    (length gs <= fuel)%nat -> 0 <= d ->
    d + totalSeconds gs * 1000000000 <= 2 ^ 63 ->
    time.durationLoop fuel orig d (renderGroups gs)
    = inr (d + totalSeconds gs * 1000000000).
Proof.
  induction 1 as [|[ds u] gs [Hd Hne] Hgs IH]; intros fuel d Hfuel Hd0 Hb.
  - simpl. replace (d + 0 * 1000000000) with d by lia. by destruct fuel.
  - simpl in *. destruct fuel as [|fuel]; [lia|].
    pose proof (totalSeconds_nonneg gs Hgs) as Hnn.
    assert (Hdec : 0 <= decimal ds) by (by apply decimal_from_ge).
    assert (Heq : decimal ds * unitNanos u
                  = decimal ds * unitSeconds u * 1000000000)
      by (unfold unitNanos; lia).
    assert (Hus : 0 <= decimal ds * unitSeconds u) by (destruct u; simpl; lia).
    rewrite durationLoop_group;
      [|done|done|by apply renderGroups_startsDigit|done|lia].
    rewrite IH; [f_equal; lia|lia|lia|lia].
Qed.

(** [ParseDuration] on a text of h/m/s groups: the sum of the groups,
    in nanoseconds. *)
Lemma ParseDuration_groups (gs : list (string * hmsUnit)) :
  gs <> [] -> Forall validGroup gs ->
  totalSeconds gs * 1000000000 <= 2 ^ 63 - 1 ->
  time.ParseDuration (renderGroups gs) = inr (totalSeconds gs * 1000000000).
Proof.
  intros Hne Hgs Hb.
  pose proof (totalSeconds_nonneg gs Hgs) as Hnn.
  pose proof (renderGroups_length gs) as Hlen.
  pose proof (durationLoop_groups (renderGroups gs) gs Hgs
                (String.length (renderGroups gs)) 0 Hlen) as Hloop.
  destruct gs as [|[ds u] gs']; [done|].
  inversion Hgs as [|? ? [Hd Hdne] Hgs']; subst.
  simpl in Hd, Hdne.
  destruct ds as [|c0 ds']; [done|].
  simpl in Hd. apply andb_true_iff in Hd as [Hc0 Hds'].
  remember (totalSeconds ((String c0 ds', u) :: gs')) as T eqn:HT.
  cbn [renderGroups] in *. rewrite append_cons in *.
  set (tl := ds' +:+ String (unitLetter u) (renderGroups gs')) in *.
  unfold time.ParseDuration.
  assert (Hsign : match String c0 tl with
                  | String "-"%char s' => (true, s')
                  | String "+"%char s' => (false, s')
                  | _ => (false, String c0 tl)
                  end = (false, String c0 tl)).
  { destruct c0 as [[] [] [] [] [] [] [] []];
      first [reflexivity | discriminate Hc0]. }
  rewrite Hsign.
  assert (Htl : (1 <= String.length tl)%nat).
  { subst tl. rewrite length_append. simpl. lia. }
  assert (H0 : String.eqb (String c0 tl) "0" = false).
  { apply String.eqb_neq. intros H. apply (f_equal String.length) in H.
    simpl in H. lia. }
  rewrite H0. cbn [String.eqb].
  rewrite Hloop by lia.
  cbn [mbind sum_error_bind]. rewrite Z.add_0_l.
  destruct (Z.gtb_spec (T * 1000000000) (2 ^ 63 - 1)); [lia|done].
Qed.

(** [Seconds] of a whole number of seconds is that number. *)
Lemma Seconds_whole (T : Z) :
  0 <= T -> time.Seconds (T * 1000000000) = f64.of_Z T.
Proof.
  intros HT. unfold time.Seconds.
  change time.Second with 1000000000.
  rewrite Z.quot_mul by lia. rewrite Z.rem_mul by lia.
  change (f64.div (f64.of_Z 0) (f64.of_Z 1000000000)) with (S754_zero false).
  unfold f64.add, f64.of_Z, binary_normalize.
  destruct T as [|p|p]; [reflexivity| |lia].
  unfold binary_round.
  destruct (shl_align p 0 _) as [mz ez].
  unfold binary_round_aux.
  destruct (shr_fexp f64.prec f64.emax (Z.pos mz) ez loc_Exact) as [mrs e'].
  destruct (shr_fexp f64.prec f64.emax _ e' loc_Exact) as [mrs' e''].
  destruct (shr_m mrs') as [|m|m]; try reflexivity.
  destruct (Z.leb e'' _); reflexivity.
Qed.

Lemma leadingInt_from_digits_cases (ds rest : string) (x : Z) :
  allDigits ds = true -> stopsDigits rest ->
  time.leadingInt_from x (ds +:+ rest) = None
  \/ time.leadingInt_from x (ds +:+ rest) = Some (decimal_from x ds, rest).
Proof.
  revert x. induction ds as [|c ds IH]; intros x Hd Hrest.
  - right. rewrite append_nil. destruct rest as [|c rest]; [done|].
    simpl in *. by rewrite Hrest.
  - simpl in Hd. apply andb_true_iff in Hd as [Hc Hds].
    rewrite append_cons. cbn [time.leadingInt_from decimal_from]. rewrite Hc.
    destruct (x >? 2 ^ 63 / 10); [by left|].
    destruct (x * 10 + digit_val c >? 2 ^ 63); [by left|].
    by apply IH.
Qed.

(** A first group in days is refused, whatever follows it. *)
Lemma ParseDuration_days (ds rest : string) :
  allDigits ds = true -> ds <> EmptyString -> startsDigit rest ->
  exists err, time.ParseDuration (ds +:+ String "d" rest) = inl err.
Proof.
  intros Hds Hne Hrest.
  destruct ds as [|c0 ds']; [done|].
  pose proof (leadingInt_from_digits_cases (String c0 ds') (String "d" rest) 0
                Hds eq_refl) as Hint.
  simpl in Hds. apply andb_true_iff in Hds as [Hc0 Hds'].
  rewrite append_cons in *.
  set (tl := ds' +:+ String "d" rest) in *.
  unfold time.ParseDuration.
  assert (Hsign : match String c0 tl with
                  | String "-"%char s' => (true, s')
                  | String "+"%char s' => (false, s')
                  | _ => (false, String c0 tl)
                  end = (false, String c0 tl)).
  { destruct c0 as [[] [] [] [] [] [] [] []];
      first [reflexivity | discriminate Hc0]. }
  rewrite Hsign.
  assert (Htl : (1 <= String.length tl)%nat).
  { subst tl. rewrite length_append. simpl. lia. }
  assert (H0 : String.eqb (String c0 tl) "0" = false).
  { apply String.eqb_neq. intros H. apply (f_equal String.length) in H.
    simpl in H. lia. }
  rewrite H0. cbn [String.eqb String.length time.durationLoop].
  rewrite Hc0, orb_true_r. cbn [negb].
  fold (time.leadingInt (String c0 tl)) in Hint.
  destruct Hint as [-> | ->]; [by eexists|].
  cbn [negb andb time.unitLen Ascii.eqb Bool.eqb isDigit].
  replace (isDigit "d") with false by reflexivity. cbn [orb].
  rewrite (unitLen_startsDigit rest Hrest).
  cbn [Nat.eqb strings.take strings.drop].
  replace (time.unitMap !! "d") with (@None Z) by reflexivity.
  match goal with |- context [if ?b then _ else _] => destruct b end;
    by eexists.
Qed.



(** ** One poll with an open connection *)

Lemma bind_intro {A B} (m : Go A) (f : A -> Go B) t a t' r' :
  m = MkGo t (Returned a) -> f a = MkGo t' r' ->
  m ≫= f = MkGo (t ++ t') r'.
Proof.
  intros -> Hf. unfold mbind, Go_mbind, Go_bind. simpl. by rewrite Hf.
Qed.

Lemma bind_intro_panic {A B} (m : Go A) (f : A -> Go B) t p :
  m = MkGo t (Panicked p) -> m ≫= f = MkGo t (Panicked p).
Proof. by intros ->. Qed.

Lemma checkQuery_eq (msg : string) (err : option error) (up_ : float64) :
  checkQuery msg err up_ = MkGo (queryLog msg err) (Returned (upAfter err up_)).
Proof. by destruct err. Qed.

Lemma checkParse_eq (parse : Go (option error)) (up_ : float64) t r :
  parse = MkGo t (Returned r) ->
  checkParse parse up_ = MkGo (t ++ []) (Returned (upAfter r up_)).
Proof. intros ->. by destruct r. Qed.

Section Poll.
Variable unicodeLower : string -> string.
Variable ParseFloat : string -> float64 * option error.
Variable e : Exporter.
Variable api : fahapi.API.
Hypothesis Hopen : fahapi.NewAPI_err api = None.

Let uptime_ := fst (fahapi.Exec_reply api cmdUptime).
Let date := fst (fahapi.Exec_reply api cmdDate).
Let info := fst (fahapi.Info_reply api).
Let slotInfo := fst (fahapi.SlotInfo_reply api).
Let queueInfo := fst (fahapi.QueueInfo_reply api).

(** The availability value when the three fallible parsers returned
    [ru], [rd] and [ri]. *)
Let upValue (ru rd ri : option error) : float64 :=
  upAfter ri (upAfter rd (upAfter ru
    (upAfter (snd (fahapi.QueueInfo_reply api))
       (upAfter (snd (fahapi.SlotInfo_reply api))
          (upAfter (snd (fahapi.Info_reply api))
             (upAfter (snd (fahapi.Exec_reply api cmdDate))
                (upAfter (snd (fahapi.Exec_reply api cmdUptime))
                   (f64.of_Z 1)))))))).

Lemma Collect_open_returns tu td ti ru rd ri :
  parseUptime e uptime_ = MkGo tu (Returned ru) ->
  parseDate e date = MkGo td (Returned rd) ->
  parseInfo e info = MkGo ti (Returned ri) ->
  Collect unicodeLower ParseFloat e api
  = MkGo ([EvNewAPI (address e)]
          ++ (queryEvents api
              ++ tu ++ td ++ ti
              ++ trace (parseSlotInfo unicodeLower e slotInfo)
              ++ trace (parseQueueInfo unicodeLower ParseFloat e
                          slotInfo queueInfo)
              ++ [EvSend (MustNewConstMetric (up e) (upValue ru rd ri) [])])
          ++ [EvClose])
         (Returned tt).
Proof.
  intros Hu Hd Hi. unfold Collect. rewrite Hopen.
  subst uptime_ date info slotInfo queueInfo upValue. unfold queryEvents.
  destruct (fahapi.Exec_reply api cmdUptime) as [u e1].
  destruct (fahapi.Exec_reply api cmdDate) as [d e2].
  destruct (fahapi.Info_reply api) as [i e3].
  destruct (fahapi.SlotInfo_reply api) as [sl e4].
  destruct (fahapi.QueueInfo_reply api) as [ql e5].
  cbn [fst snd] in *.
  eapply bind_intro; [reflexivity|].
  assert (Hbody :
    ('(uptime_, err) ← call (EvExec cmdUptime) (u, e1);
     up_ ← checkQuery "Failed to collect uptime from FAHClient" err
             (f64.of_Z 1);
     '(date, err0) ← call (EvExec cmdDate) (d, e2);
     up_0 ← checkQuery "Failed to collect date from FAHClient" err0 up_;
     '(info, err1) ← call EvInfo (i, e3);
     up_1 ← checkQuery "Failed to collect info from FAHClient" err1 up_0;
     '(slotInfo, err2) ← call EvSlotInfo (sl, e4);
     up_2 ← checkQuery "Failed to collect slot-info from FAHClient" err2 up_1;
     '(queueInfo, err3) ← call EvQueueInfo (ql, e5);
     up_3 ← checkQuery "Failed to collect queue-info from FAHClient" err3
              up_2;
     up_4 ← checkParse (parseUptime e uptime_) up_3;
     up_5 ← checkParse (parseDate e date) up_4;
     up_6 ← checkParse (parseInfo e info) up_5;
     up_7 ← checkParse (parseSlotInfo unicodeLower e slotInfo) up_6;
     up_8 ← checkParse
              (parseQueueInfo unicodeLower ParseFloat e slotInfo queueInfo)
              up_7;
     send (MustNewConstMetric (up e) up_8 []))
    = MkGo ([EvExec cmdUptime]
            ++ queryLog "Failed to collect uptime from FAHClient" e1
            ++ [EvExec cmdDate]
            ++ queryLog "Failed to collect date from FAHClient" e2
            ++ [EvInfo]
            ++ queryLog "Failed to collect info from FAHClient" e3
            ++ [EvSlotInfo]
            ++ queryLog "Failed to collect slot-info from FAHClient" e4
            ++ [EvQueueInfo]
            ++ queryLog "Failed to collect queue-info from FAHClient" e5
            ++ (tu ++ []) ++ (td ++ []) ++ (ti ++ [])
            ++ (trace (parseSlotInfo unicodeLower e sl) ++ [])
            ++ (trace (parseQueueInfo unicodeLower ParseFloat e sl ql) ++ [])
            ++ [EvSend (MustNewConstMetric (up e)
                  (upAfter ri (upAfter rd (upAfter ru
                     (upAfter e5 (upAfter e4 (upAfter e3 (upAfter e2
                        (upAfter e1 (f64.of_Z 1))))))))) [])])
           (Returned tt)).
  { eapply bind_intro; [reflexivity|]. cbn beta iota.
    eapply bind_intro; [apply checkQuery_eq|].
    eapply bind_intro; [reflexivity|]. cbn beta iota.
    eapply bind_intro; [apply checkQuery_eq|].
    eapply bind_intro; [reflexivity|]. cbn beta iota.
    eapply bind_intro; [apply checkQuery_eq|].
    eapply bind_intro; [reflexivity|]. cbn beta iota.
    eapply bind_intro; [apply checkQuery_eq|].
    eapply bind_intro; [reflexivity|]. cbn beta iota.
    eapply bind_intro; [apply checkQuery_eq|].
    eapply bind_intro; [by apply checkParse_eq|].
    eapply bind_intro; [by apply checkParse_eq|].
    eapply bind_intro; [by apply checkParse_eq|].
    eapply bind_intro;
      [apply checkParse_eq; by rewrite parseSlotInfo_spec|].
    eapply bind_intro;
      [apply checkParse_eq; by rewrite parseQueueInfo_spec|].
    reflexivity. }
  unfold defer. rewrite Hbody. cbn [trace result emit].
  rewrite !app_nil_r. f_equal.
  by rewrite <- !app_assoc.
Qed.

End Poll.

Lemma upAfter_zero (r : option error) :
  upAfter r (f64.of_Z 0) = f64.of_Z 0.
Proof. by destruct r. Qed.

Lemma parseUptime_returns (e : Exporter) (s : string) :
  exists r, parseUptime e s = MkGo (trace (parseUptime e s)) (Returned r).
Proof.
  rewrite parseUptime_spec. destruct (time.ParseDuration _); by eexists.
Qed.

Lemma parseDate_returns (e : Exporter) (s : string) :
  exists r, parseDate e s = MkGo (trace (parseDate e s)) (Returned r).
Proof.
  rewrite parseDate_spec. destruct (time.ParseRFC3339 _); by eexists.
Qed.


